(** * mcp-cost: the new-service detector of [cost.py]

    A shallow embedding of [cost.py] and the properties its specification
    states about it.  The program asks AWS Cost Explorer for the services
    billed in the last 180 days, compares them with the set stored in
    [previous_services.json], stores the current set and reports what is new.

    Python values are modelled as the JSON-shaped values a Cost Explorer
    response and a parsed baseline file are made of; numbers are integers
    (floating point numbers are outside the model, and so are the integers
    too long for the interpreter to convert to text and back: by default
    those of more than 4300 digits) and a string is a sequence of characters
    below 256.  Exceptions are explicit: every operation that
    can raise returns a [res].  The two effects of the program, the baseline
    file and the log, are threaded through a state and exception monad.  What
    the interpreter and its libraries decide (the order in which a set is
    iterated, the text [json] writes and reads, the form of a date) is the
    interface [PyRuntime]; the properties hold for every runtime, and a
    reference runtime shows that there is one. *)

From Stdlib Require Import ZArith Lia Ascii.
From stdpp Require Import base gmap list strings.

Set Warnings "-register-all".

(** ** Python values *)

(** A dict is kept as its list of items in iteration order; its keys are
    strings (the objects come from JSON) and [dict_get] reads the first
    binding of a key. *)
Inductive pyval : Type :=
  | PNone
  | PBool (b : bool)
  | PInt (z : Z)
  | PStr (s : string)
  | PList (xs : list pyval)
  | PDict (kvs : list (string * pyval)).

(** The hashable values: what a [set] can hold. *)
Inductive atom : Type :=
  | ANone
  | ABool (b : bool)
  | AInt (z : Z)
  | AStr (s : string).

Definition of_atom (a : atom) : pyval :=
  match a with
  | ANone => PNone
  | ABool b => PBool b
  | AInt z => PInt z
  | AStr s => PStr s
  end.

(** [hash(v)] succeeds on these and raises [TypeError] on a list or a dict. *)
Definition to_atom (v : pyval) : option atom :=
  match v with
  | PNone => Some ANone
  | PBool b => Some (ABool b)
  | PInt z => Some (AInt z)
  | PStr s => Some (AStr s)
  | PList _ | PDict _ => None
  end.

(** Python equality on hashable values: [True == 1] and [False == 0], so a
    bool and the int of the same value are one element of a set.  [hkey_of]
    sends an atom to its class. *)
Inductive hkey : Type :=
  | KNone
  | KNum (z : Z)
  | KStr (s : string).

Definition hkey_of (a : atom) : hkey :=
  match a with
  | ANone => KNone
  | ABool b => KNum (Z.b2z b)
  | AInt z => KNum z
  | AStr s => KStr s
  end.

Global Instance hkey_eq_dec : EqDecision hkey.
Proof. solve_decision. Defined.

Global Instance atom_eq_dec : EqDecision atom.
Proof. solve_decision. Defined.

Definition hkey_code (k : hkey) : unit + (Z + string) :=
  match k with
  | KNone => inl ()
  | KNum z => inr (inl z)
  | KStr s => inr (inr s)
  end.

Definition hkey_decode (c : unit + (Z + string)) : hkey :=
  match c with
  | inl _ => KNone
  | inr (inl z) => KNum z
  | inr (inr s) => KStr s
  end.

Global Instance hkey_countable : Countable hkey.
Proof. apply (inj_countable' hkey_code hkey_decode). by intros []. Defined.

(** A Python [set]: for each class of equal values, the object that was
    added first. *)
Abbreviation pyset := (gmap hkey atom).

(** [s.add(a)]: nothing changes when an equal element is already there. *)
Definition set_add (a : atom) (s : pyset) : pyset :=
  match s !! hkey_of a with
  | Some _ => s
  | None => <[hkey_of a := a]> s
  end.

(** The set made by adding the items of a list from left to right. *)
Definition set_of_list (xs : list atom) : pyset :=
  foldl (λ s a, set_add a s) ∅ xs.

(** An element with the class it is stored under. *)
Definition keyed (a : atom) : hkey * atom := (hkey_of a, a).

(** [a in s]. *)
Definition set_mem (a : atom) (s : pyset) : bool :=
  bool_decide (is_Some (s !! hkey_of a)).

(** [bool(s)]. *)
Definition set_truthy (s : pyset) : bool := negb (bool_decide (s = ∅)).

(** Every element is stored under its own class: what [set_add] maintains. *)
Definition set_wf (s : pyset) : Prop :=
  ∀ k a, s !! k = Some a → hkey_of a = k.


(** [bool(v)]. *)
Definition truthy (v : pyval) : bool :=
  match v with
  | PNone => false
  | PBool b => b
  | PInt z => negb (z =? 0)%Z
  | PStr s => match s with EmptyString => false | String _ _ => true end
  | PList xs => match xs with [] => false | _ :: _ => true end
  | PDict kvs => match kvs with [] => false | _ :: _ => true end
  end.

(** ** Exceptions *)

(** [JSONDecodeError], [UnicodeDecodeError], [ValueError] and
    [RecursionError] are what [json.load] raises on a file it does not load:
    text that is not JSON, bytes that are not text, a number it does not
    convert, a nesting too deep.  [JSONDecodeError] is a [ValueError] in
    Python; a handler for it catches none of the three others. *)
Inductive exn : Type :=
  | KeyError (k : pyval)
  | IndexError
  | TypeError
  | JSONDecodeError
  | UnicodeDecodeError
  | ValueError
  | RecursionError.

Inductive res (A : Type) : Type :=
  | Ok (a : A)
  | Raise (e : exn).
Arguments Ok {A} a.
Arguments Raise {A} e.

Definition res_bind {A B} (r : res A) (f : A → res B) : res B :=
  match r with
  | Ok a => f a
  | Raise e => Raise e
  end.

(** A computation over a state [S] that returns or raises; the state a
    computation reached when it raised is kept, as [services] is in
    [extract_services]. *)
Definition M (S A : Type) : Type := S → res A * S.

Definition ret {S A} (a : A) : M S A := λ s, (Ok a, s).

Definition bind {S A B} (m : M S A) (f : A → M S B) : M S B :=
  λ s, match m s with
       | (Ok a, s') => f a s'
       | (Raise e, s') => (Raise e, s')
       end.

Definition lift {S A} (r : res A) : M S A := λ s, (r, s).

Notation "x <- m ;; k" := (bind m (λ x, k))
  (at level 100, m at next level, right associativity).

(** [for x in xs: body(x)]. *)
Fixpoint for_each {S A} (xs : list A) (body : A → M S unit) : M S unit :=
  match xs with
  | [] => ret tt
  | x :: xs' => _ <- body x ;; for_each xs' body
  end.

(** ** Built-in operations *)

Fixpoint dict_get (k : string) (kvs : list (string * pyval)) : option pyval :=
  match kvs with
  | [] => None
  | (k', v) :: kvs' => if String.eqb k k' then Some v else dict_get k kvs'
  end.

(** [xs[i]] on a sequence: a negative index counts from the end. *)
Definition seq_index {A} (xs : list A) (i : Z) : res A :=
  let n := Z.of_nat (length xs) in
  let j := if (i <? 0)%Z then (i + n)%Z else i in
  if (j <? 0)%Z then Raise IndexError
  else match xs !! Z.to_nat j with
       | Some x => Ok x
       | None => Raise IndexError
       end.

(** The characters of a string, each a string of length one. *)
Fixpoint str_chars (s : string) : list string :=
  match s with
  | EmptyString => []
  | String c s' => String c EmptyString :: str_chars s'
  end.

(** [v[k]]. *)
Definition getitem (v k : pyval) : res pyval :=
  match v with
  | PDict kvs =>
      match k with
      | PStr s =>
          match dict_get s kvs with
          | Some x => Ok x
          | None => Raise (KeyError k)
          end
      | PNone | PBool _ | PInt _ => Raise (KeyError k)
      | PList _ | PDict _ => Raise TypeError
      end
  | PList xs =>
      match k with
      | PInt i => seq_index xs i
      | PBool b => seq_index xs (Z.b2z b)
      | _ => Raise TypeError
      end
  | PStr s =>
      match k with
      | PInt i => res_bind (seq_index (str_chars s) i) (λ c, Ok (PStr c))
      | PBool b => res_bind (seq_index (str_chars s) (Z.b2z b)) (λ c, Ok (PStr c))
      | _ => Raise TypeError
      end
  | PNone | PBool _ | PInt _ => Raise TypeError
  end.

(** The items [for x in v] runs over; the values walked here are not
    changed while they are walked. *)
Definition py_iter (v : pyval) : res (list pyval) :=
  match v with
  | PList xs => Ok xs
  | PDict kvs => Ok (PStr <$> kvs.*1)
  | PStr s => Ok (PStr <$> str_chars s)
  | PNone | PBool _ | PInt _ => Raise TypeError
  end.

(** [services.add(v)] on the set held in the state. *)
Definition add_m (v : pyval) : M pyset unit :=
  λ s, match to_atom v with
       | Some a => (Ok tt, set_add a s)
       | None => (Raise TypeError, s)
       end.

(** [set(v)]. *)
Definition py_set (v : pyval) : res pyset :=
  res_bind (py_iter v) (λ xs,
    match for_each xs add_m ∅ with
    | (Ok _, s) => Ok s
    | (Raise e, _) => Raise e
    end).

(** [sep.join(xs)]: every item must be a [str]. *)
Fixpoint str_items (xs : list atom) : res (list string) :=
  match xs with
  | [] => Ok []
  | AStr s :: xs' => res_bind (str_items xs') (λ ss, Ok (s :: ss))
  | _ :: _ => Raise TypeError
  end.

Definition str_join (sep : string) (xs : list atom) : res string :=
  res_bind (str_items xs) (λ ss, Ok (String.concat sep ss)).

(** ** The Python runtime

    What the program takes from the interpreter and its libraries, with the
    part of their contracts the proofs use.  [set_iter] is the order in which
    a set is iterated: Python fixes none, only that every element comes once.
    [json_dumps] is the text [json.dump] writes.  [json_load] is [json.load]
    on a file of the given content: it reads the file, decodes its bytes and
    parses the text, and returns the value or raises.  An array of strings,
    integers, booleans and [null] that [json.dump] wrote is read back as it
    was written (the integers being those of the model).  [strftime_ymd] is
    [strftime('%Y-%m-%d')] on a day number. *)
Class PyRuntime : Type := {
  set_iter : pyset → list atom;
  set_iter_perm : ∀ s : pyset, set_iter s ≡ₚ (map_to_list s).*2;
  json_dumps : pyval → string;
  json_load : string → res pyval;
  json_load_dumps : ∀ xs : list atom,
    json_load (json_dumps (PList (of_atom <$> xs))) = Ok (PList (of_atom <$> xs));
  strftime_ymd : Z → string
}.

(** The value [json.load] returns on a file of the given content, [None]
    when it raises. *)
Definition json_loads {rt : PyRuntime} (content : string) : option pyval :=
  match json_load content with
  | Ok v => Some v
  | Raise _ => None
  end.

(** ** The world of a run *)

(** The calls of [logger], in the order of [cost.py]. *)
Inductive log_record : Type :=
  | LogFetchError
  | LogParseError (k : pyval)
  | LogBaselineNotFound
  | LogBaselineDecodeError
  | LogSaveError
  | LogNewServices (new_services : pyset)
  | LogNoNewServices.

Inductive log_level : Type := INFO | ERROR.

Definition level_of (r : log_record) : log_level :=
  match r with
  | LogFetchError | LogParseError _ | LogBaselineDecodeError | LogSaveError => ERROR
  | LogBaselineNotFound | LogNewServices _ | LogNoNewServices => INFO
  end.

(** The fixed part of each message. *)
Definition message_of (r : log_record) : string :=
  match r with
  | LogFetchError => "Error fetching cost and usage data: "
  | LogParseError _ => "Error parsing response data: "
  | LogBaselineNotFound => "previous_services.json not found, starting with an empty set."
  | LogBaselineDecodeError => "Error reading JSON data from previous_services.json: "
  | LogSaveError => "Error saving services to previous_services.json: "
  | LogNewServices _ => "New services detected: "
  | LogNoNewServices => "No new AWS services detected since the last check."
  end.

(** What a run can change: the content of [previous_services.json] ([None]
    when there is no such file) and the log, newest record first.  The
    content is the bytes of the file, one character for each; what reading
    and decoding them gives is [json_load]'s to say.  A file that is there
    can be opened: errors of [open] other than [FileNotFoundError] are
    outside the model. *)
Record world : Type := World {
  baseline_file : option string;
  logged : list log_record
}.

(** What a run is given.  [today] is the day number of [datetime.today()].
    [ce_get_cost_and_usage start end] is the outcome of the Cost Explorer
    call, [None] when the client raises.  [write_fault] is [Some f] when
    writing the baseline raises [IOError], [f] being what is left of the file
    (unchanged, truncated or partly written). *)
Record env : Type := Env {
  today : Z;
  ce_get_cost_and_usage : string → string → option pyval;
  write_fault : option (option string)
}.

Definition log (r : log_record) : M world unit :=
  λ w, (Ok tt, World (baseline_file w) (r :: logged w)).

Definition write_baseline (f : option string) : M world unit :=
  λ w, (Ok tt, World f (logged w)).

(** ** The program *)

Section Program.
Context {rt : PyRuntime}.

Definition PREVIOUS_SERVICES_FILE : string := "previous_services.json".

(** [get_cost_and_usage]: the response, or [None] after logging when the
    client raises. *)
Definition get_cost_and_usage (e : env) (start_date end_date : string) : M world pyval :=
  match ce_get_cost_and_usage e start_date end_date with
  | Some response => ret response
  | None => _ <- log LogFetchError ;; ret PNone
  end.

(** [group['Keys'][0]]. *)
Definition service_name_of (group : pyval) : res pyval :=
  res_bind (getitem group (PStr "Keys")) (λ keys, getitem keys (PInt 0)).

(** The body of the inner loop: [services.add(group['Keys'][0])]. *)
Definition group_body (group : pyval) : M pyset unit :=
  service_name <- lift (service_name_of group) ;; add_m service_name.

(** The body of the outer loop: [for group in result['Groups']]. *)
Definition result_body (result : pyval) : M pyset unit :=
  groups <- lift (res_bind (getitem result (PStr "Groups")) py_iter) ;;
  for_each groups group_body.

(** The body of the [try] of [extract_services], over the local [services]. *)
Definition extract_loop (data : pyval) : M pyset unit :=
  results <- lift (res_bind (getitem data (PStr "ResultsByTime")) py_iter) ;;
  for_each results result_body.

(** [extract_services]: a [KeyError] is logged and ends the walk with what
    [services] holds; any other exception leaves the function. *)
Definition extract_services (data : pyval) : M world pyset :=
  match extract_loop data ∅ with
  | (Ok _, services) => ret services
  | (Raise (KeyError k), services) => _ <- log (LogParseError k) ;; ret services
  | (Raise e, _) => lift (Raise e)
  end.

(** [set(json.load(f))] on the content of the file, [None] when [json.load]
    raises. *)
Definition parse_baseline (text : string) : option (res pyset) :=
  py_set <$> json_loads text.

(** [load_previous_services]: no file and [JSONDecodeError] are logged and
    give the empty set; any other exception of [json.load] or of [set]
    leaves the function. *)
Definition load_previous_services : M world pyset :=
  λ w, match baseline_file w with
       | None => (_ <- log LogBaselineNotFound ;; ret ∅) w
       | Some content =>
           match json_load content with
           | Ok v => lift (py_set v) w
           | Raise JSONDecodeError => (_ <- log LogBaselineDecodeError ;; ret ∅) w
           | Raise err => lift (Raise err) w
           end
       end.

Definition save_current_services (e : env) (services : pyset) : M world unit :=
  match write_fault e with
  | None => write_baseline (Some (json_dumps (PList (of_atom <$> set_iter services))))
  | Some remains => _ <- write_baseline remains ;; log LogSaveError
  end.

Definition compare_services (last_month_services current_month_services : pyset) : pyset :=
  current_month_services ∖ last_month_services.

(** The window of the query: the 180 days up to today. *)
Definition six_months_ago (e : env) : Z := (today e - 180)%Z.
Definition start_date (e : env) : string := strftime_ymd (six_months_ago e).
Definition end_date (e : env) : string := strftime_ymd (today e).

(** [flag_new_services]; [region] is not used.  The coroutine awaits
    nothing, so a call runs it to its end.  The session and the client it
    makes at its start are not used either ([get_cost_and_usage] calls the
    client of the module) and are taken to be made without error. *)
Definition flag_new_services (e : env) (region : string) : M world string :=
  cost_data <- get_cost_and_usage e (start_date e) (end_date e) ;;
  if negb (truthy cost_data) then ret "Error: Could not fetch AWS cost data"
  else
    current_month_services <- extract_services cost_data ;;
    if negb (set_truthy current_month_services) then
      ret "No services found in the AWS cost data."
    else
      previous_services <- load_previous_services ;;
      let new_services := compare_services previous_services current_month_services in
      _ <- save_current_services e current_month_services ;;
      if set_truthy new_services then
        _ <- log (LogNewServices new_services) ;;
        joined <- lift (str_join ", " (set_iter new_services)) ;;
        ret ("New AWS services detected: " +:+ joined)
      else
        _ <- log LogNoNewServices ;;
        ret "No new AWS services detected since last check.".

(** *** The walk of [extract_services], step by step

    The two loops visit the groups of the results in order.  A group gives a
    service name or an exception; a result whose groups cannot be reached
    gives an exception in its place, and so does a response with no results
    to walk. *)
Inductive step : Type :=
  | Found (name : atom)
  | Failed (e : exn).

Definition group_step (group : pyval) : step :=
  match service_name_of group with
  | Ok v =>
      match to_atom v with
      | Some a => Found a
      | None => Failed TypeError
      end
  | Raise e => Failed e
  end.

Definition result_steps (result : pyval) : list step :=
  match res_bind (getitem result (PStr "Groups")) py_iter with
  | Ok groups => group_step <$> groups
  | Raise e => [Failed e]
  end.

Definition walk (data : pyval) : list step :=
  match res_bind (getitem data (PStr "ResultsByTime")) py_iter with
  | Ok results => results ≫= result_steps
  | Raise e => [Failed e]
  end.

(** Stop at the first error: the names found before it are added, what
    comes after it is never looked at. *)
Fixpoint collect (steps : list step) (services : pyset) : res unit * pyset :=
  match steps with
  | [] => (Ok tt, services)
  | Found a :: steps' => collect steps' (set_add a services)
  | Failed e :: _ => (Raise e, services)
  end.

(** Skip the errors: what a walk that dropped only the malformed entries
    would return. *)
Fixpoint collect_skipping (steps : list step) (services : pyset) : pyset :=
  match steps with
  | [] => services
  | Found a :: steps' => collect_skipping steps' (set_add a services)
  | Failed _ :: steps' => collect_skipping steps' services
  end.

End Program.

(** ** A reference runtime

    A concrete [json] for the values of the model, after CPython's: the
    encoder writes what [json.dump] writes with its default settings
    ([", "] and [": "] as separators, every character outside the printable
    ASCII range escaped), the decoder reads JSON text, decoded as ASCII.  A string is a
    sequence of characters below 256; the decoder refuses the numbers with a
    fraction or an exponent and the escapes of characters above 255, which
    have no value in the model. *)
Module PyJson.

Definition c_quote : ascii := Eval cbv in ascii_of_nat 34.
Definition c_backslash : ascii := Eval cbv in ascii_of_nat 92.
Definition c_backspace : ascii := Eval cbv in ascii_of_nat 8.
Definition c_tab : ascii := Eval cbv in ascii_of_nat 9.
Definition c_newline : ascii := Eval cbv in ascii_of_nat 10.
Definition c_formfeed : ascii := Eval cbv in ascii_of_nat 12.
Definition c_return : ascii := Eval cbv in ascii_of_nat 13.

Definition code (c : ascii) : N := N_of_ascii c.

(** *** Encoder *)

Definition hex_digit (n : N) : ascii :=
  ascii_of_N (if (n <? 10)%N then 48 + n else 87 + n).

Definition escape_char (c : ascii) : string :=
  if Ascii.eqb c c_quote then String c_backslash (String c_quote "")
  else if Ascii.eqb c c_backslash then String c_backslash (String c_backslash "")
  else if Ascii.eqb c c_newline then String c_backslash "n"
  else if Ascii.eqb c c_return then String c_backslash "r"
  else if Ascii.eqb c c_tab then String c_backslash "t"
  else if Ascii.eqb c c_backspace then String c_backslash "b"
  else if Ascii.eqb c c_formfeed then String c_backslash "f"
  else if ((32 <=? code c) && (code c <=? 126))%N then String c ""
  else String c_backslash
         (String "u" (String "0" (String "0"
            (String (hex_digit (code c / 16)) (String (hex_digit (code c mod 16)) ""))))).

Fixpoint escape (s : string) : string :=
  match s with
  | EmptyString => ""
  | String c s' => escape_char c +:+ escape s'
  end.

Definition dump_str (s : string) : string :=
  String c_quote (escape s +:+ String c_quote "").

Definition digit_char (d : Z) : ascii := ascii_of_N (Z.to_N (48 + d)).

(** The decimal digits of [n], at most [fuel] of them. *)
Fixpoint digits (fuel : nat) (n : Z) : string :=
  match fuel with
  | O => ""
  | S fuel' =>
      (if (n <? 10)%Z then "" else digits fuel' (n / 10))
      +:+ String (digit_char (n mod 10)) ""
  end.

Definition dump_nat (n : Z) : string := digits (S (Z.to_nat (Z.log2 n))) n.

Definition dump_int (z : Z) : string :=
  if (z <? 0)%Z then String "-" (dump_nat (- z)) else dump_nat z.

Fixpoint dumps (v : pyval) : string :=
  match v with
  | PNone => "null"
  | PBool true => "true"
  | PBool false => "false"
  | PInt z => dump_int z
  | PStr s => dump_str s
  | PList xs => String "[" (String.concat ", " (map dumps xs) +:+ "]")
  | PDict kvs =>
      String "{"
        (String.concat ", "
           (map (λ kv, match kv with (k, x) => dump_str k +:+ ": " +:+ dumps x end) kvs)
         +:+ "}")
  end.

(** *** Decoder *)

Definition is_ws (c : ascii) : bool :=
  Ascii.eqb c " " || Ascii.eqb c c_tab || Ascii.eqb c c_newline || Ascii.eqb c c_return.

Fixpoint skip_ws (s : string) : string :=
  match s with
  | EmptyString => s
  | String c s' => if is_ws c then skip_ws s' else s
  end.

Definition digit_val (c : ascii) : option Z :=
  let n := Z.of_N (code c) in
  if ((48 <=? n) && (n <=? 57))%Z then Some (n - 48)%Z else None.

Definition hex_val (c : ascii) : option N :=
  let n := code c in
  if ((48 <=? n) && (n <=? 57))%N then Some (n - 48)%N
  else if ((97 <=? n) && (n <=? 102))%N then Some (n - 87)%N
  else if ((65 <=? n) && (n <=? 70))%N then Some (n - 55)%N
  else None.

(** The character a one-letter escape stands for. *)
Definition unescape (c : ascii) : option ascii :=
  if Ascii.eqb c c_quote then Some c_quote
  else if Ascii.eqb c c_backslash then Some c_backslash
  else if Ascii.eqb c "/" then Some "/"%char
  else if Ascii.eqb c "b" then Some c_backspace
  else if Ascii.eqb c "f" then Some c_formfeed
  else if Ascii.eqb c "n" then Some c_newline
  else if Ascii.eqb c "r" then Some c_return
  else if Ascii.eqb c "t" then Some c_tab
  else None.

Definition hex4 (h1 h2 h3 h4 : ascii) : option ascii :=
  match hex_val h1, hex_val h2, hex_val h3, hex_val h4 with
  | Some a, Some b, Some c, Some d =>
      if ((a =? 0) && (b =? 0))%N then Some (ascii_of_N (c * 16 + d)) else None
  | _, _, _, _ => None
  end.

(** The rest of a string literal, after its opening quote. *)
Fixpoint parse_str (s : string) : option (string * string) :=
  match s with
  | EmptyString => None
  | String c s1 =>
      if Ascii.eqb c c_quote then Some ("", s1)
      else if Ascii.eqb c c_backslash then
        match s1 with
        | EmptyString => None
        | String e s2 =>
            match unescape e with
            | Some d =>
                match parse_str s2 with
                | Some (str, rest) => Some (String d str, rest)
                | None => None
                end
            | None =>
                if Ascii.eqb e "u" then
                  match s2 with
                  | String h1 (String h2 (String h3 (String h4 s3))) =>
                      match hex4 h1 h2 h3 h4, parse_str s3 with
                      | Some d, Some (str, rest) => Some (String d str, rest)
                      | _, _ => None
                      end
                  | _ => None
                  end
                else None
            end
        end
      else if (code c <? 32)%N then None
      else
        match parse_str s1 with
        | Some (str, rest) => Some (String c str, rest)
        | None => None
        end
  end.

Fixpoint read_digits (acc : Z) (s : string) : Z * string :=
  match s with
  | EmptyString => (acc, s)
  | String c s' =>
      match digit_val c with
      | Some d => read_digits (acc * 10 + d) s'
      | None => (acc, s)
      end
  end.

(** A fraction or an exponent follows: the number is a float. *)
Definition starts_float (s : string) : bool :=
  match s with
  | EmptyString => false
  | String c _ => Ascii.eqb c "." || Ascii.eqb c "e" || Ascii.eqb c "E"
  end.

Definition parse_nat (s : string) : option (Z * string) :=
  match s with
  | EmptyString => None
  | String c s' =>
      match digit_val c with
      | Some d =>
          let '(n, rest) := if (d =? 0)%Z then (0%Z, s') else read_digits d s' in
          if starts_float rest then None else Some (n, rest)
      | None => None
      end
  end.

Definition parse_int (s : string) : option (Z * string) :=
  match s with
  | String "-" s' =>
      match parse_nat s' with
      | Some (n, rest) => Some ((- n)%Z, rest)
      | None => None
      end
  | _ => parse_nat s
  end.

(** [strip_prefix p s] is what follows [p] in [s]. *)
Fixpoint strip_prefix (p s : string) : option string :=
  match p, s with
  | EmptyString, _ => Some s
  | String a p', String b s' => if Ascii.eqb a b then strip_prefix p' s' else None
  | String _ _, EmptyString => None
  end.

(** A value that is not an array or an object. *)
Definition parse_scalar (s : string) : option (pyval * string) :=
  match s with
  | EmptyString => None
  | String c s1 =>
      if Ascii.eqb c c_quote then
        match parse_str s1 with
        | Some (str, rest) => Some (PStr str, rest)
        | None => None
        end
      else
        match strip_prefix "null" s, strip_prefix "true" s, strip_prefix "false" s with
        | Some rest, _, _ => Some (PNone, rest)
        | None, Some rest, _ => Some (PBool true, rest)
        | None, None, Some rest => Some (PBool false, rest)
        | None, None, None =>
            match parse_int s with
            | Some (z, rest) => Some (PInt z, rest)
            | None => None
            end
        end
  end.

(** [d[k] = v]: a key that is there keeps its place and takes the value. *)
Fixpoint dict_set (k : string) (v : pyval) (kvs : list (string * pyval))
  : list (string * pyval) :=
  match kvs with
  | [] => [(k, v)]
  | (k', v') :: kvs' =>
      if String.eqb k k' then (k, v) :: kvs' else (k', v') :: dict_set k v kvs'
  end.

Definition dict_of_items (items : list (string * pyval)) : list (string * pyval) :=
  fold_left (λ d kv, dict_set kv.1 kv.2 d) items [].

Fixpoint parse_value (fuel : nat) (s : string) : option (pyval * string) :=
  match fuel with
  | O => None
  | S n =>
      match s with
      | EmptyString => None
      | String c s1 =>
          if Ascii.eqb c "[" then
            match skip_ws s1 with
            | String c2 s2 =>
                if Ascii.eqb c2 "]" then Some (PList [], s2)
                else
                  match parse_elems n (String c2 s2) with
                  | Some (xs, rest) => Some (PList xs, rest)
                  | None => None
                  end
            | EmptyString => None
            end
          else if Ascii.eqb c "{" then
            match skip_ws s1 with
            | String c2 s2 =>
                if Ascii.eqb c2 "}" then Some (PDict [], s2)
                else
                  match parse_members n (String c2 s2) with
                  | Some (items, rest) => Some (PDict (dict_of_items items), rest)
                  | None => None
                  end
            | EmptyString => None
            end
          else parse_scalar s
      end
  end
with parse_elems (fuel : nat) (s : string) : option (list pyval * string) :=
  match fuel with
  | O => None
  | S n =>
      match parse_value n s with
      | Some (x, s1) =>
          match skip_ws s1 with
          | String c s2 =>
              if Ascii.eqb c "," then
                match parse_elems n (skip_ws s2) with
                | Some (xs, rest) => Some (x :: xs, rest)
                | None => None
                end
              else if Ascii.eqb c "]" then Some ([x], s2)
              else None
          | EmptyString => None
          end
      | None => None
      end
  end
with parse_members (fuel : nat) (s : string)
  : option (list (string * pyval) * string) :=
  match fuel with
  | O => None
  | S n =>
      match s with
      | String q s0 =>
          if Ascii.eqb q c_quote then
            match parse_str s0 with
            | Some (k, s1) =>
                match skip_ws s1 with
                | String c s2 =>
                    if Ascii.eqb c ":" then
                      match parse_value n (skip_ws s2) with
                      | Some (x, s3) =>
                          match skip_ws s3 with
                          | String c' s4 =>
                              if Ascii.eqb c' "," then
                                match parse_members n (skip_ws s4) with
                                | Some (items, rest) => Some ((k, x) :: items, rest)
                                | None => None
                                end
                              else if Ascii.eqb c' "}" then Some ([(k, x)], s4)
                              else None
                          | EmptyString => None
                          end
                      | None => None
                      end
                    else None
                | EmptyString => None
                end
            | None => None
            end
          else None
      | EmptyString => None
      end
  end.

(** [json.loads]: one value, with nothing but blanks around it. *)
Definition loads (s : string) : option pyval :=
  match parse_value (2 * String.length s + 2) (skip_ws s) with
  | Some (v, rest) =>
      match skip_ws rest with
      | EmptyString => Some v
      | String _ _ => None
      end
  | None => None
  end.

(** [json.load] on a file of the given content, under a locale whose
    encoding is ASCII: a byte above 127 is not decoded, and what is decoded
    is parsed.  This decoder has no limit on nesting or on integers. *)
Fixpoint is_ascii (s : string) : bool :=
  match s with
  | EmptyString => true
  | String c s' => (code c <? 128)%N && is_ascii s'
  end.

Definition load (content : string) : res pyval :=
  if is_ascii content then
    match loads content with
    | Some v => Ok v
    | None => Raise JSONDecodeError
    end
  else Raise UnicodeDecodeError.

(** *** What the encoder writes, seen by the decoder *)

(** A string that does not go on with a digit. *)
Definition no_digit (s : string) : Prop :=
  match s with
  | EmptyString => True
  | String c _ => digit_val c = None
  end.

(** What may follow an element of an array. *)
Definition delim (s : string) : Prop :=
  ∃ tl, s = String "," tl ∨ s = String "]" tl.

(** The first character of an integer: a digit or a minus sign. *)
Definition int_head (c : ascii) : Prop :=
  c = "-"%char ∨ ∃ d, (0 ≤ d ≤ 9)%Z ∧ c = digit_char d.

(** The first character of an atom: no blank, and it opens or closes no
    array or object. *)
Definition plain_head (c : ascii) : Prop :=
  is_ws c = false ∧ Ascii.eqb c "[" = false ∧ Ascii.eqb c "{" = false
  ∧ Ascii.eqb c "]" = false.

End PyJson.

(** The calendar date of a day number and its [%Y-%m-%d] form; day 1 is
    0001-01-01, as [date.toordinal] counts. *)
Module PyDate.

Definition civil (ordinal : Z) : Z * Z * Z :=
  let z := (ordinal + 305)%Z in
  let era := (z / 146097)%Z in
  let doe := (z mod 146097)%Z in
  let yoe := ((doe - doe / 1460 + doe / 36524 - doe / 146096) / 365)%Z in
  let doy := (doe - (365 * yoe + yoe / 4 - yoe / 100))%Z in
  let mp := ((5 * doy + 2) / 153)%Z in
  let d := (doy - (153 * mp + 2) / 5 + 1)%Z in
  let m := (if mp <? 10 then mp + 3 else mp - 9)%Z in
  let y := (yoe + era * 400 + (if m <=? 2 then 1 else 0))%Z in
  (y, m, d).

Fixpoint zeros (n : nat) : string :=
  match n with
  | O => ""
  | S n' => String "0" (zeros n')
  end.

Definition pad (width : nat) (n : Z) : string :=
  let s := PyJson.dump_nat n in
  zeros (width - String.length s) +:+ s.

Definition strftime_ymd (ordinal : Z) : string :=
  let '(y, m, d) := civil ordinal in
  pad 4 y +:+ "-" +:+ pad 2 m +:+ "-" +:+ pad 2 d.

End PyDate.

(** ** Responses, environments and worlds of sample runs *)

(** A group of a Cost Explorer response, as the API returns it when the
    query groups by service. *)
Definition group_of (service : string) : pyval :=
  PDict [("Keys", PList [PStr service]);
         ("Metrics", PDict [("BlendedCost",
                             PDict [("Amount", PStr "0.42"); ("Unit", PStr "USD")])])].

(** A response with one time bucket holding the given groups. *)
Definition response_of (groups : list pyval) : pyval :=
  PDict [("ResultsByTime",
          PList [PDict [("TimePeriod",
                         PDict [("Start", PStr "2026-05-07"); ("End", PStr "2026-11-03")]);
                        ("Total", PDict []);
                        ("Groups", PList groups);
                        ("Estimated", PBool false)]]);
         ("DimensionValueAttributes", PList [])].

(** A baseline file with a byte that is not ASCII (and, alone, not UTF-8
    either): the bytes of ["Amazon "] and [0xE9] between quotes and
    brackets. *)
Definition undecodable_baseline : string :=
  String "[" (String PyJson.c_quote ("Amazon "
    +:+ String (ascii_of_nat 233) (String PyJson.c_quote "]"))).

(** A baseline file that is text but not JSON. *)
Definition truncated_baseline : string := "[".

(** A response whose one group has an empty list of keys. *)
Definition empty_keys_response : pyval :=
  PDict [("ResultsByTime", PList [PDict [("Groups", PList [PDict [("Keys", PList [])]])]])].

(** A response whose second group has no ['Keys']. *)
Definition broken_response : pyval :=
  response_of [group_of "Amazon EC2"; PDict [("Metrics", PDict [])]; group_of "Amazon S3"].

Definition two_services_response : pyval :=
  response_of [group_of "Amazon EC2"; group_of "Amazon S3"].

(** Baseline files, as [json.dump] writes them. *)
Definition ec2_baseline : string := PyJson.dumps (PList [PStr "Amazon EC2"]).

Definition both_baseline : string :=
  PyJson.dumps (PList [PStr "Amazon EC2"; PStr "Amazon S3"]).

(** The client answers with [response] and the baseline can be written. *)
Definition env_of (response : option pyval) : env :=
  Env 739923 (λ _ _, response) None.

Definition world_without_file : world := World None [].

Definition world_with_file (text : string) : world := World (Some text) [].

(** * Properties *)

(** ** Sets *)

Lemma set_add_union a (s : pyset) : set_add a s = s ∪ {[hkey_of a := a]}.
Proof.
  unfold set_add. destruct (s !! hkey_of a) as [b|] eqn:Hk.
  - apply map_eq. intros k. rewrite lookup_union.
    destruct (decide (k = hkey_of a)) as [->|Hne].
    + by rewrite Hk, lookup_singleton_eq.
    + rewrite lookup_singleton_ne by done. by destruct (s !! k).
  - by apply insert_union_singleton_r.
Qed.

Lemma set_wf_empty : set_wf ∅.
Proof. intros k a. by rewrite lookup_empty. Qed.

Lemma set_add_wf a (s : pyset) : set_wf s → set_wf (set_add a s).
Proof.
  intros Hwf k b. unfold set_add. destruct (s !! hkey_of a) eqn:Hk; [apply Hwf|].
  rewrite lookup_insert. case_decide; [naive_solver|apply Hwf].
Qed.

Lemma foldl_set_add xs : ∀ s : pyset,
  foldl (λ s a, set_add a s) s xs = s ∪ list_to_map (keyed <$> xs).
Proof.
  induction xs as [|a xs IH]; intros s; simpl.
  - by rewrite (right_id_L ∅ (∪)).
  - rewrite IH, set_add_union, insert_union_singleton_l. by rewrite (assoc_L (∪)).
Qed.

Lemma set_of_list_to_map xs : set_of_list xs = list_to_map (keyed <$> xs).
Proof. unfold set_of_list. by rewrite foldl_set_add, (left_id_L ∅ (∪)). Qed.



Lemma keyed_elements (s : pyset) : set_wf s → keyed <$> (map_to_list s).*2 = map_to_list s.
Proof.
  intros Hwf. rewrite <- list_fmap_compose.
  rewrite <- (list_fmap_id (map_to_list s)) at 2.
  apply list_fmap_ext. intros i [k a] Hin. unfold keyed. simpl.
  f_equal. apply Hwf. apply elem_of_map_to_list. by eapply list_elem_of_lookup_2.
Qed.

(** A set is rebuilt from its elements, whatever the order they come in. *)
Lemma set_of_list_elements (s : pyset) xs :
  set_wf s → xs ≡ₚ (map_to_list s).*2 → set_of_list xs = s.
Proof.
  intros Hwf Hperm. rewrite set_of_list_to_map.
  rewrite <- (list_to_map_to_list s). symmetry.
  apply list_to_map_proper; [apply NoDup_fst_map_to_list|].
  rewrite <- (keyed_elements s) by done. by rewrite Hperm.
Qed.



(** ** Loops *)

Lemma for_each_add (xs : list atom) : ∀ s : pyset,
  for_each (of_atom <$> xs) add_m s = (Ok tt, foldl (λ s a, set_add a s) s xs).
Proof.
  induction xs as [|a xs IH]; intros s; [done|].
  cbn [fmap list_fmap for_each]. unfold bind at 1. unfold add_m at 1.
  assert (to_atom (of_atom a) = Some a) as -> by by destruct a.
  apply IH.
Qed.

Lemma py_set_atoms (xs : list atom) : py_set (PList (of_atom <$> xs)) = Ok (set_of_list xs).
Proof. unfold py_set. simpl. by rewrite for_each_add. Qed.

Lemma collect_app steps1 : ∀ steps2 (s : pyset),
  collect (steps1 ++ steps2) s
  = match collect steps1 s with
    | (Ok _, s') => collect steps2 s'
    | (Raise e, s') => (Raise e, s')
    end.
Proof.
  induction steps1 as [|[a|e] steps1 IH]; intros steps2 s; simpl; [done| |done].
  apply IH.
Qed.

Lemma collect_found names : ∀ s : pyset,
  collect (Found <$> names) s = (Ok tt, foldl (λ s a, set_add a s) s names).
Proof. induction names as [|a names IH]; intros s; simpl; [done|apply IH]. Qed.

Lemma group_body_step group (s : pyset) : group_body group s = collect [group_step group] s.
Proof.
  unfold group_body, group_step, bind, lift, add_m.
  destruct (service_name_of group) as [v|e]; [|done].
  by destruct (to_atom v).
Qed.

Lemma groups_collect groups : ∀ s : pyset,
  for_each groups group_body s = collect (group_step <$> groups) s.
Proof.
  induction groups as [|g groups IH]; intros s; [done|].
  cbn [for_each fmap list_fmap collect]. unfold bind at 1. rewrite group_body_step.
  cbn [collect]. destruct (group_step g) as [a|e]; [apply IH|done].
Qed.

Lemma result_body_steps result (s : pyset) :
  result_body result s = collect (result_steps result) s.
Proof.
  unfold result_body, result_steps, bind, lift.
  destruct (res_bind (getitem result (PStr "Groups")) py_iter) as [groups|e]; [|done].
  apply groups_collect.
Qed.

Lemma results_collect results : ∀ s : pyset,
  for_each results result_body s = collect (results ≫= result_steps) s.
Proof.
  induction results as [|r results IH]; intros s; [done|].
  cbn [for_each mbind list_bind]. unfold bind at 1.
  rewrite result_body_steps, collect_app.
  destruct (collect (result_steps r) s) as [[[]|e] s']; [apply IH|done].
Qed.

(** The loops of [extract_services] stop at the first error of the walk. *)
Lemma extract_loop_collect data (s : pyset) : extract_loop data s = collect (walk data) s.
Proof.
  unfold extract_loop, walk, bind, lift.
  destruct (res_bind (getitem data (PStr "ResultsByTime")) py_iter) as [results|e]; [|done].
  apply results_collect.
Qed.

Section Properties.
Context {rt : PyRuntime}.

Lemma set_truthy_false (s : pyset) : set_truthy s = false ↔ s = ∅.
Proof. unfold set_truthy. rewrite negb_false_iff, bool_decide_eq_true. done. Qed.

Lemma set_truthy_true (s : pyset) : set_truthy s = true ↔ s ≠ ∅.
Proof. unfold set_truthy. rewrite negb_true_iff, bool_decide_eq_false. done. Qed.

Lemma extract_services_wf data w services w' :
  extract_services data w = (Ok services, w') → set_wf services.
Proof.
  unfold extract_services. rewrite extract_loop_collect.
  assert (∀ steps (s : pyset), set_wf s → set_wf (collect steps s).2) as Hwf.
  { induction steps as [|[a|e] steps IH]; intros s Hs; simpl; [done| |done].
    by apply IH, set_add_wf. }
  specialize (Hwf (walk data) ∅ set_wf_empty).
  destruct (collect (walk data) ∅) as [[[]|e] s]; simpl in Hwf |- *.
  - unfold ret. intros; by simplify_eq.
  - destruct e; unfold bind, log, ret, lift; simpl; intros; by simplify_eq.
Qed.

Lemma json_loads_Some text v : json_loads text = Some v ↔ json_load text = Ok v.
Proof. unfold json_loads. destruct (json_load text); naive_solver. Qed.

Lemma json_loads_dumps (xs : list atom) :
  json_loads (json_dumps (PList (of_atom <$> xs))) = Some (PList (of_atom <$> xs)).
Proof. apply json_loads_Some, json_load_dumps. Qed.

(** [load_previous_services] on a file [json.load] loads. *)
Lemma load_previous_services_loaded w text r :
  baseline_file w = Some text →
  parse_baseline text = Some r →
  load_previous_services w = (r, w).
Proof.
  unfold load_previous_services, parse_baseline, json_loads. intros ->.
  destruct (json_load text) as [v|err]; [|done]. simpl. by intros [= <-].
Qed.

(** [load_previous_services] on no file, and on a file that is text but not
    JSON: the empty set, and one log record. *)
Lemma load_previous_services_recovers w :
  (baseline_file w = None →
   load_previous_services w
   = (Ok ∅, World (baseline_file w) (LogBaselineNotFound :: logged w)))
  ∧ (∀ content, baseline_file w = Some content →
     json_load content = Raise JSONDecodeError →
     load_previous_services w
     = (Ok ∅, World (baseline_file w) (LogBaselineDecodeError :: logged w))).
Proof.
  unfold load_previous_services. destruct w as [file logs]. simpl. split.
  - by intros ->.
  - by intros content -> ->.
Qed.

(** Reading back what [save_current_services] writes. *)
Lemma parse_baseline_saved (services : pyset) :
  set_wf services →
  parse_baseline (json_dumps (PList (of_atom <$> set_iter services))) = Some (Ok services).
Proof.
  intros Hwf. unfold parse_baseline. rewrite json_loads_dumps. simpl.
  rewrite py_set_atoms. do 2 f_equal. apply set_of_list_elements; [done|apply set_iter_perm].
Qed.

(** The run up to the first guard. *)
Lemma flag_falsy e region w cost_data w1 :
  get_cost_and_usage e (start_date e) (end_date e) w = (Ok cost_data, w1) →
  truthy cost_data = false →
  flag_new_services e region w = (Ok "Error: Could not fetch AWS cost data", w1).
Proof. intros Hget Hfalsy. unfold flag_new_services, bind. by rewrite Hget, Hfalsy. Qed.

Lemma get_cost_and_usage_file e a b w r w1 :
  get_cost_and_usage e a b w = (r, w1) → baseline_file w1 = baseline_file w.
Proof.
  unfold get_cost_and_usage. destruct (ce_get_cost_and_usage e a b);
    unfold bind, log, ret; simpl; intros; by simplify_eq.
Qed.

Lemma extract_services_file data w r w1 :
  extract_services data w = (r, w1) → baseline_file w1 = baseline_file w.
Proof.
  unfold extract_services. destruct (extract_loop data ∅) as [[[]|err] s];
    [|destruct err]; unfold bind, log, ret, lift; simpl; intros; by simplify_eq.
Qed.

(** The run from the second guard on. *)
Lemma flag_success_path e region w cost_data w1 current w2 previous w3 :
  get_cost_and_usage e (start_date e) (end_date e) w = (Ok cost_data, w1) →
  truthy cost_data = true →
  extract_services cost_data w1 = (Ok current, w2) →
  current ≠ ∅ →
  load_previous_services w2 = (Ok previous, w3) →
  flag_new_services e region w
  = (let new_services := compare_services previous current in
     _ <- save_current_services e current ;;
     if set_truthy new_services then
       _ <- log (LogNewServices new_services) ;;
       joined <- lift (str_join ", " (set_iter new_services)) ;;
       ret ("New AWS services detected: " +:+ joined)
     else
       _ <- log LogNoNewServices ;;
       ret "No new AWS services detected since last check.") w3.
Proof.
  intros Hget Htruthy Hextract Hne%set_truthy_true Hload.
  unfold flag_new_services. unfold bind at 1. rewrite Hget, Htruthy. cbn [negb].
  unfold bind at 1. rewrite Hextract, Hne. cbn [negb].
  unfold bind at 1. by rewrite Hload.
Qed.

Lemma str_items_strings (xs : list atom) :
  (∀ a, a ∈ xs → ∃ n, a = AStr n) →
  ∃ names, xs = AStr <$> names ∧ str_items xs = Ok names.
Proof.
  induction xs as [|a xs IH]; intros Hall.
  - by exists [].
  - destruct (Hall a) as [n ->]; [left|].
    destruct IH as (names & -> & Hitems).
    { intros b Hb. apply Hall. by right. }
    exists (n :: names). split; [done|]. simpl. by rewrite Hitems.
Qed.

Lemma flag_load_raises e region w cost_data w1 current w2 err w3 :
  get_cost_and_usage e (start_date e) (end_date e) w = (Ok cost_data, w1) →
  truthy cost_data = true →
  extract_services cost_data w1 = (Ok current, w2) →
  current ≠ ∅ →
  load_previous_services w2 = (Raise err, w3) →
  flag_new_services e region w = (Raise err, w3).
Proof.
  intros Hget Htruthy Hextract Hne%set_truthy_true Hload.
  unfold flag_new_services. unfold bind at 1. rewrite Hget, Htruthy. cbn [negb].
  unfold bind at 1. rewrite Hextract, Hne. cbn [negb].
  unfold bind at 1. by rewrite Hload.
Qed.

(** Once the previous baseline is loaded, a write that succeeds leaves the
    current set in the file, whatever happens after it. *)
Lemma flag_writes_current e region w cost_data w1 current w2 previous w3 :
  get_cost_and_usage e (start_date e) (end_date e) w = (Ok cost_data, w1) →
  truthy cost_data = true →
  extract_services cost_data w1 = (Ok current, w2) →
  current ≠ ∅ →
  load_previous_services w2 = (Ok previous, w3) →
  write_fault e = None →
  baseline_file (flag_new_services e region w).2
  = Some (json_dumps (PList (of_atom <$> set_iter current))).
Proof.
  intros Hget Htruthy Hextract Hne Hload Hwrite.
  rewrite (flag_success_path e region w cost_data w1 current w2 previous w3) by done.
  unfold save_current_services. rewrite Hwrite. cbv zeta.
  unfold bind at 1. unfold write_baseline at 1.
  destruct (set_truthy (compare_services previous current)).
  - unfold bind, log, lift, ret. simpl.
    by destruct (str_join ", " (set_iter (compare_services previous current))).
  - done.
Qed.

End Properties.

(** ** The reference runtime reads back what it writes *)

Module PyJsonFacts.
Import PyJson.

Lemma app_cons c s t : String c s +:+ t = String c (s +:+ t).
Proof. reflexivity. Qed.
Lemma app_nil_l t : "" +:+ t = t.
Proof. reflexivity. Qed.
Lemma app_assoc' (s t u : string) : (s +:+ t) +:+ u = s +:+ (t +:+ u).
Proof. induction s as [|c s IH]; [done|]. by rewrite !app_cons, IH. Qed.

Lemma parse_str_escape_char c s rest str :
  parse_str s = Some (str, rest) →
  parse_str (escape_char c +:+ s) = Some (String c str, rest).
Proof.
  intros Hs.
  destruct c as [[] [] [] [] [] [] [] []]; cbv [escape_char]; simpl; rewrite ?app_cons, ?app_nil_l; simpl; rewrite Hs; reflexivity.
Qed.

Lemma parse_str_escape s rest :
  parse_str (escape s +:+ String c_quote rest) = Some (s, rest).
Proof.
  induction s as [|c s IH]; [done|].
  simpl escape. rewrite app_assoc'. by apply parse_str_escape_char.
Qed.

Lemma digit_val_char d : (0 ≤ d ≤ 9)%Z → digit_val (digit_char d) = Some d.
Proof.
  intros Hd.
  assert (d = 0 ∨ d = 1 ∨ d = 2 ∨ d = 3 ∨ d = 4 ∨ d = 5 ∨ d = 6 ∨ d = 7 ∨ d = 8 ∨ d = 9)%Z
    as Hcases by lia.
  repeat (destruct Hcases as [-> | Hcases]; [reflexivity|]). by subst.
Qed.

Lemma read_digits_stop n rest : no_digit rest → read_digits n rest = (n, rest).
Proof. destruct rest as [|c rest]; simpl; [done|]. by intros ->. Qed.

Lemma digits_read fuel : ∀ n rest,
  (0 < n < 2 ^ Z.of_nat fuel)%Z →
  ∃ d tl, digits fuel n +:+ rest = String (digit_char d) tl
          ∧ (1 ≤ d ≤ 9)%Z ∧ read_digits d tl = read_digits n rest.
Proof.
  induction fuel as [|fuel IH]; intros n rest Hn.
  { simpl in Hn. lia. }
  simpl digits. destruct (Z.ltb_spec n 10) as [Hlt|Hge].
  - exists n, rest. rewrite app_nil_l, app_cons, app_nil_l.
    rewrite Z.mod_small by lia. split; [done|]. split; [lia|done].
  - destruct (IH (n / 10)%Z (String (digit_char (n mod 10)) rest)) as (d & tl & Heq & Hd & Hread).
    { rewrite Nat2Z.inj_succ, Z.pow_succ_r in Hn by lia.
      generalize dependent (2 ^ Z.of_nat fuel)%Z. intros p _ Hn.
      split; [apply Z.div_str_pos; lia|].
      apply Z.div_lt_upper_bound; lia. }
    exists d, tl. rewrite app_assoc', app_cons, app_nil_l. split; [done|]. split; [done|].
    rewrite Hread. cbn [read_digits].
    pose proof (Z.mod_pos_bound n 10 ltac:(lia)) as Hmod.
    rewrite digit_val_char by lia.
    f_equal. pose proof (Z.div_mod n 10 ltac:(lia)). lia.
Qed.

Lemma parse_nat_dump n rest :
  (0 ≤ n)%Z → no_digit rest → starts_float rest = false →
  parse_nat (dump_nat n +:+ rest) = Some (n, rest).
Proof.
  intros Hn Hrest Hfloat. unfold dump_nat.
  destruct (decide (n = 0%Z)) as [->|Hne].
  { change (digits _ 0 +:+ rest) with (String "0" rest).
    unfold parse_nat. change (digit_val "0") with (Some 0%Z). cbn [Z.eqb]. by rewrite Hfloat. }
  destruct (digits_read (S (Z.to_nat (Z.log2 n))) n rest) as (d & tl & -> & Hd & Hread).
  { pose proof (Z.log2_spec n ltac:(lia)) as Hlog. pose proof (Z.log2_nonneg n).
    rewrite Nat2Z.inj_succ, Z2Nat.id by lia. lia. }
  unfold parse_nat. rewrite digit_val_char by lia.
  destruct (Z.eqb_spec d 0) as [?|_]; [lia|].
  rewrite Hread, read_digits_stop by done. by rewrite Hfloat.
Qed.

Lemma delim_no_digit s : delim s → no_digit s ∧ starts_float s = false.
Proof. by intros (tl & [-> | ->]). Qed.

Lemma int_head_cases c (P : ascii → Prop) :
  int_head c →
  P "-"%char → P "0"%char → P "1"%char → P "2"%char → P "3"%char → P "4"%char →
  P "5"%char → P "6"%char → P "7"%char → P "8"%char → P "9"%char → P c.
Proof.
  intros [-> | (d & Hd & ->)]; [done|]. intros _.
  assert (d = 0 ∨ d = 1 ∨ d = 2 ∨ d = 3 ∨ d = 4 ∨ d = 5 ∨ d = 6 ∨ d = 7 ∨ d = 8 ∨ d = 9)%Z
    as Hcases by lia.
  repeat (destruct Hcases as [-> | Hcases]; [by intros|]). subst. by intros.
Qed.

Lemma dump_nat_head n rest :
  (0 ≤ n)%Z → ∃ d tl, (0 ≤ d ≤ 9)%Z ∧ dump_nat n +:+ rest = String (digit_char d) tl.
Proof.
  intros Hn. destruct (decide (n = 0%Z)) as [->|Hne].
  { by exists 0%Z, rest. }
  destruct (digits_read (S (Z.to_nat (Z.log2 n))) n rest) as (d & tl & Heq & Hd & _).
  { pose proof (Z.log2_spec n ltac:(lia)) as Hlog. pose proof (Z.log2_nonneg n).
    rewrite Nat2Z.inj_succ, Z2Nat.id by lia. lia. }
  exists d, tl. split; [lia|done].
Qed.

Lemma dump_int_head z rest :
  ∃ c tl, int_head c ∧ dump_int z +:+ rest = String c tl.
Proof.
  unfold dump_int. destruct (Z.ltb_spec z 0).
  - eexists _, _. split; [by left|]. by rewrite app_cons.
  - destruct (dump_nat_head z rest) as (d & tl & Hd & ->); [done|].
    exists (digit_char d), tl. split; [right; eauto|done].
Qed.

Lemma parse_int_dump z rest :
  no_digit rest → starts_float rest = false →
  parse_int (dump_int z +:+ rest) = Some (z, rest).
Proof.
  intros Hrest Hfloat. unfold dump_int. destruct (Z.ltb_spec z 0).
  - rewrite app_cons. cbn [parse_int]. rewrite parse_nat_dump by (done || lia).
    f_equal. f_equal. lia.
  - pose proof (parse_nat_dump z rest ltac:(done) Hrest Hfloat) as Hparse.
    destruct (dump_nat_head z rest) as (d & tl & Hd & Heq); [done|].
    rewrite Heq in *. revert Hparse.
    apply (int_head_cases (digit_char d)); [right; eauto|..]; done.
Qed.

Lemma parse_scalar_int c tl :
  int_head c →
  parse_scalar (String c tl)
  = match parse_int (String c tl) with
    | Some (z, rest) => Some (PInt z, rest)
    | None => None
    end.
Proof. intros Hc. apply (int_head_cases c); done. Qed.

Lemma parse_value_scalar n c tl :
  Ascii.eqb c "[" = false → Ascii.eqb c "{" = false →
  parse_value (S n) (String c tl) = parse_scalar (String c tl).
Proof. intros H1 H2. cbn [parse_value]. by rewrite H1, H2. Qed.

Lemma dumps_atom_head a rest :
  ∃ c tl, dumps (of_atom a) +:+ rest = String c tl ∧ plain_head c.
Proof.
  destruct a as [|[]|z|s]; simpl dumps.
  - by eexists _, _.
  - by eexists _, _.
  - by eexists _, _.
  - destruct (dump_int_head z rest) as (c & tl & Hc & ->).
    exists c, tl. split; [done|]. by apply (int_head_cases c).
  - by eexists _, _.
Qed.

Lemma parse_value_atom n a rest :
  delim rest → parse_value (S n) (dumps (of_atom a) +:+ rest) = Some (of_atom a, rest).
Proof.
  intros Hrest. destruct (delim_no_digit _ Hrest) as [Hnd Hfl].
  destruct (dumps_atom_head a rest) as (c & tl & Heq & _ & H1 & H2 & _).
  rewrite Heq, parse_value_scalar, <- Heq by done. clear c tl Heq H1 H2.
  destruct a as [|[]|z|s]; simpl dumps; simpl of_atom.
  - done.
  - done.
  - done.
  - destruct (dump_int_head z rest) as (c & tl & Hc & Heq).
    rewrite Heq, parse_scalar_int, <- Heq by done. by rewrite parse_int_dump.
  - unfold dump_str. rewrite app_cons, app_assoc', app_cons, app_nil_l.
    unfold parse_scalar. change (Ascii.eqb c_quote c_quote) with true. cbn match.
    by rewrite parse_str_escape.
Qed.

Lemma skip_ws_plain c tl : plain_head c → skip_ws (String c tl) = String c tl.
Proof. intros (Hws & _). cbn [skip_ws]. by rewrite Hws. Qed.

Lemma concat_atoms_head (a : atom) (xs : list atom) (rest : string) :
  ∃ c tl, String.concat ", " (map dumps (of_atom <$> a :: xs)) +:+ rest = String c tl
          ∧ plain_head c.
Proof.
  destruct xs as [|b xs]; cbn [fmap list_fmap map String.concat].
  - apply dumps_atom_head.
  - rewrite app_assoc'. apply dumps_atom_head.
Qed.

Lemma parse_elems_S n s :
  parse_elems (S n) s
  = match parse_value n s with
    | Some (x, s1) =>
        match skip_ws s1 with
        | String c s2 =>
            if Ascii.eqb c "," then
              match parse_elems n (skip_ws s2) with
              | Some (xs, rest) => Some (x :: xs, rest)
              | None => None
              end
            else if Ascii.eqb c "]" then Some ([x], s2)
            else None
        | EmptyString => None
        end
    | None => None
    end.
Proof. reflexivity. Qed.

Lemma parse_elems_atoms (xs : list atom) : ∀ (a : atom) (fuel : nat) (rest : string),
  (length xs + 2 ≤ fuel)%nat →
  parse_elems fuel (String.concat ", " (map dumps (of_atom <$> a :: xs)) +:+ String "]" rest)
  = Some (of_atom <$> a :: xs, rest).
Proof.
  induction xs as [|b xs IH]; intros a fuel rest Hfuel.
  - destruct fuel as [|[|n]]; [simpl in Hfuel; lia..|].
    rewrite parse_elems_S. cbn [fmap list_fmap map String.concat].
    rewrite parse_value_atom by (eexists; eauto). done.
  - destruct fuel as [|[|n]]; [simpl in Hfuel; lia..|].
    change (String.concat ", " (map dumps (of_atom <$> a :: b :: xs)))
      with (dumps (of_atom a) +:+ ", " +:+ String.concat ", " (map dumps (of_atom <$> b :: xs))).
    rewrite !app_assoc', parse_elems_S.
    rewrite parse_value_atom by (eexists; eauto).
    rewrite !app_cons, app_nil_l.
    change (skip_ws (String "," ?s)) with (String "," s).
    change (Ascii.eqb "," ",") with true. cbv iota.
    destruct (concat_atoms_head b xs (String "]" rest)) as (c & tl & Heq & Hc).
    change (skip_ws (String " " ?s)) with (skip_ws s).
    rewrite Heq, skip_ws_plain, <- Heq by done.
    rewrite IH by (simpl in Hfuel |- *; lia). done.
Qed.

Lemma length_app (s t : string) :
  String.length (s +:+ t) = (String.length s + String.length t)%nat.
Proof. induction s as [|c s IH]; [done|]. rewrite app_cons. simpl. by rewrite IH. Qed.

Lemma length_concat_atoms (xs : list atom) :
  (length xs ≤ String.length (String.concat ", " (map dumps (of_atom <$> xs))))%nat.
Proof.
  induction xs as [|a xs IH]; [done|].
  destruct (dumps_atom_head a "") as (c & tl & Heq & _).
  assert (1 ≤ String.length (dumps (of_atom a)))%nat as Ha.
  { apply (f_equal String.length) in Heq. rewrite length_app in Heq. simpl in Heq. lia. }
  destruct xs as [|b xs]; [simpl; lia|].
  change (String.concat ", " (map dumps (of_atom <$> a :: b :: xs)))
    with (dumps (of_atom a) +:+ ", " +:+ String.concat ", " (map dumps (of_atom <$> b :: xs))).
  rewrite !length_app. simpl in IH |- *. lia.
Qed.

Lemma loads_dumps_atoms (xs : list atom) :
  loads (dumps (PList (of_atom <$> xs))) = Some (PList (of_atom <$> xs)).
Proof.
  unfold loads. cbn [dumps].
  change (skip_ws (String "[" ?s)) with (String "[" s).
  pose proof (length_concat_atoms xs) as Hlen.
  set (body := String.concat ", " (map dumps (of_atom <$> xs))) in *.
  assert (String.length (String "[" (body +:+ "]")) = S (String.length body + 1))%nat as ->.
  { simpl. by rewrite length_app. }
  replace (2 * S (String.length body + 1) + 2)%nat with (S (2 * String.length body + 5)) by lia.
  cbn [parse_value]. change (Ascii.eqb "[" "[") with true. cbn match.
  subst body. destruct xs as [|a xs]; [done|].
  destruct (concat_atoms_head a xs "]") as (c & tl & Heq & Hc).
  rewrite Heq, skip_ws_plain by done.
  destruct Hc as (_ & _ & _ & ->). rewrite <- Heq.
  rewrite parse_elems_atoms by (simpl in Hlen |- *; lia). done.
Qed.

(** What the encoder writes is ASCII. *)
Lemma is_ascii_app s t : is_ascii (s +:+ t) = is_ascii s && is_ascii t.
Proof.
  induction s as [|c s IH]; [done|].
  rewrite app_cons. cbn [is_ascii]. by rewrite IH, andb_assoc.
Qed.

Lemma is_ascii_escape_char c : is_ascii (escape_char c) = true.
Proof. by destruct c as [[] [] [] [] [] [] [] []]. Qed.

Lemma is_ascii_escape s : is_ascii (escape s) = true.
Proof.
  induction s as [|c s IH]; [done|].
  cbn [escape]. by rewrite is_ascii_app, is_ascii_escape_char, IH.
Qed.

Lemma is_ascii_digit d : (0 ≤ d ≤ 9)%Z → is_ascii (String (digit_char d) "") = true.
Proof.
  intros Hd.
  assert (d = 0 ∨ d = 1 ∨ d = 2 ∨ d = 3 ∨ d = 4 ∨ d = 5 ∨ d = 6 ∨ d = 7 ∨ d = 8 ∨ d = 9)%Z
    as Hcases by lia.
  repeat (destruct Hcases as [-> | Hcases]; [reflexivity|]). by subst.
Qed.

Lemma is_ascii_digits fuel n : is_ascii (digits fuel n) = true.
Proof.
  revert n. induction fuel as [|fuel IH]; intros n; [done|].
  cbn [digits]. rewrite is_ascii_app.
  rewrite is_ascii_digit by (apply Z.mod_pos_bound with (b := 10%Z) (a := n) || idtac; 
                             pose proof (Z.mod_pos_bound n 10); lia).
  rewrite andb_true_r. destruct (n <? 10)%Z; [done|apply IH].
Qed.

Lemma is_ascii_dumps_atom a : is_ascii (dumps (of_atom a)) = true.
Proof.
  destruct a as [|[]|z|s]; cbn [of_atom dumps]; [done..| |].
  - unfold dump_int, dump_nat. destruct (z <? 0)%Z; cbn [is_ascii];
      by rewrite is_ascii_digits.
  - unfold dump_str. cbn [is_ascii]. by rewrite is_ascii_app, is_ascii_escape.
Qed.

Lemma is_ascii_concat_atoms (xs : list atom) :
  is_ascii (String.concat ", " (map dumps (of_atom <$> xs))) = true.
Proof.
  induction xs as [|a xs IH]; [done|].
  destruct xs as [|b xs]; [apply is_ascii_dumps_atom|].
  change (String.concat ", " (map dumps (of_atom <$> a :: b :: xs)))
    with (dumps (of_atom a) +:+ ", " +:+ String.concat ", " (map dumps (of_atom <$> b :: xs))).
  by rewrite !is_ascii_app, is_ascii_dumps_atom, IH.
Qed.

Lemma load_dumps_atoms (xs : list atom) :
  load (dumps (PList (of_atom <$> xs))) = Ok (PList (of_atom <$> xs)).
Proof.
  unfold load. rewrite loads_dumps_atoms.
  assert (is_ascii (dumps (PList (of_atom <$> xs))) = true) as ->; [|done].
  cbn [dumps is_ascii]. by rewrite is_ascii_app, is_ascii_concat_atoms.
Qed.

End PyJsonFacts.

(** ** The reference runtime *)

Definition reference_runtime : PyRuntime :=
  {| set_iter s := (map_to_list s).*2;
     set_iter_perm s := reflexivity _;
     json_dumps := PyJson.dumps;
     json_load := PyJson.load;
     json_load_dumps := PyJsonFacts.load_dumps_atoms;
     strftime_ymd := PyDate.strftime_ymd |}.

(** * The claims of the specification *)

Section Claims.
Context {rt : PyRuntime}.

(** C1.  When [get_cost_and_usage] returns [None], [flag_new_services]
    returns exactly ["Error: Could not fetch AWS cost data"] and the baseline
    file is what it was before the call: the same text, or still no file. *)
Theorem flag_new_services_fetch_failed e region w :
  (get_cost_and_usage e (start_date e) (end_date e) w).1 = Ok PNone →
  (flag_new_services e region w).1 = Ok "Error: Could not fetch AWS cost data"
  ∧ baseline_file (flag_new_services e region w).2 = baseline_file w.
Proof.
  destruct (get_cost_and_usage e (start_date e) (end_date e) w) as [r w1] eqn:Hget.
  simpl. intros ->. rewrite (flag_falsy e region w PNone w1) by done.
  split; [done|]. by eapply get_cost_and_usage_file.
Qed.

(** C2.  In a run where the query returns data, the extracted set is not
    empty, the write succeeds and the run returns its message, the baseline
    file afterwards holds a text that is read back as the current service
    set of that run. *)
Theorem baseline_is_current_after_success e region w cost_data w1 current w2 message :
  get_cost_and_usage e (start_date e) (end_date e) w = (Ok cost_data, w1) →
  truthy cost_data = true →
  extract_services cost_data w1 = (Ok current, w2) →
  current ≠ ∅ →
  write_fault e = None →
  (flag_new_services e region w).1 = Ok message →
  ∃ text, baseline_file (flag_new_services e region w).2 = Some text
          ∧ parse_baseline text = Some (Ok current).
Proof.
  intros Hget Htruthy Hextract Hne Hwrite Hok.
  destruct (load_previous_services w2) as [[previous|err] w3] eqn:Hload.
  - eexists. split; [by eapply flag_writes_current|].
    apply parse_baseline_saved. by eapply extract_services_wf.
  - by rewrite (flag_load_raises e region w cost_data w1 current w2 err w3) in Hok.
Qed.

(** C3.  [compare_services A B] is the set difference [B - A]: its elements
    are those of [B] that are not in [A], as [B] holds them; and
    [compare_services A A] is empty.  The function is a total function of
    its two arguments: it reads no state and raises nothing. *)
Theorem compare_services_is_difference (A B : pyset) :
  (∀ a, set_mem a (compare_services A B) = set_mem a B && negb (set_mem a A))
  ∧ (∀ k a, compare_services A B !! k = Some a ↔ B !! k = Some a ∧ A !! k = None)
  ∧ compare_services A A = ∅.
Proof.
  unfold compare_services. split_and!.
  - intros a. unfold set_mem. rewrite lookup_difference.
    destruct (A !! hkey_of a) as [x|], (B !! hkey_of a) as [y|]; done.
  - intros k a. apply lookup_difference_Some.
  - apply map_difference_diag.
Qed.


(** C5.  [extract_services] stops at the first [KeyError] of the walk and
    returns the names found before it; what comes after the error, well
    formed or not, has no part in the result. *)
Theorem extract_services_stops_at_first_KeyError data w names k later :
  walk data = (Found <$> names) ++ Failed (KeyError k) :: later →
  extract_services data w
  = (Ok (set_of_list names), World (baseline_file w) (LogParseError k :: logged w)).
Proof.
  intros Hwalk. unfold extract_services.
  rewrite extract_loop_collect, Hwalk, collect_app, collect_found. done.
Qed.

(** C6.  On a response whose group has an empty ['Keys'] list,
    [group['Keys'][0]] raises [IndexError]; [extract_services] catches
    [KeyError] only, so the exception leaves it, and it leaves
    [flag_new_services] too. *)
Theorem extract_services_IndexError_escapes today fault region w :
  extract_services empty_keys_response w = (Raise IndexError, w)
  ∧ flag_new_services (Env today (λ _ _, Some empty_keys_response) fault) region w
    = (Raise IndexError, w).
Proof. by split. Qed.

(** C7.  [load_previous_services] catches [FileNotFoundError] and
    [JSONDecodeError] only.  Any other exception [json.load] raises on the
    file leaves the function, with nothing logged; so it is with a file
    whose bytes are not decoded, on which reading raises
    [UnicodeDecodeError]. *)
Theorem load_previous_services_undecodable_raises :
  (∀ w content err,
     baseline_file w = Some content →
     json_load content = Raise err →
     err ≠ JSONDecodeError →
     load_previous_services w = (Raise err, w))
  ∧ load_previous_services (rt := reference_runtime) (world_with_file undecodable_baseline)
    = (Raise UnicodeDecodeError, world_with_file undecodable_baseline).
Proof.
  split; [|done].
  intros w content err Hfile Hload Herr. unfold load_previous_services.
  rewrite Hfile, Hload. by destruct err.
Qed.

(** C8.  Once the query has returned data, the extraction is not empty and
    the previous set is loaded: when [new = current - previous] is empty the
    result is exactly ["No new AWS services detected since last check."];
    when it is not, and its elements are strings, the result is
    ["New AWS services detected: "] followed by the elements of [new], each
    once, joined by [", "]. *)
Theorem flag_new_services_report e region w cost_data w1 current w2 previous w3 :
  get_cost_and_usage e (start_date e) (end_date e) w = (Ok cost_data, w1) →
  truthy cost_data = true →
  extract_services cost_data w1 = (Ok current, w2) →
  current ≠ ∅ →
  load_previous_services w2 = (Ok previous, w3) →
  (compare_services previous current = ∅ →
   (flag_new_services e region w).1
   = Ok "No new AWS services detected since last check.")
  ∧ (compare_services previous current ≠ ∅ →
     (∀ k a, compare_services previous current !! k = Some a → ∃ n, a = AStr n) →
     ∃ names,
       AStr <$> names ≡ₚ (map_to_list (compare_services previous current)).*2
       ∧ (flag_new_services e region w).1
         = Ok ("New AWS services detected: " +:+ String.concat ", " names)).
Proof.
  intros Hget Htruthy Hextract Hne Hload.
  rewrite (flag_success_path e region w cost_data w1 current w2 previous w3) by done.
  cbv zeta. set (new_services := compare_services previous current).
  assert (∀ w', ∃ w'', save_current_services e current w' = (Ok tt, w'')) as Hsave.
  { intros w'. unfold save_current_services.
    destruct (write_fault e); by eexists. }
  destruct (Hsave w3) as [w4 Hw4]. split.
  - intros Hnone%set_truthy_false. rewrite Hnone. unfold bind at 1. by rewrite Hw4.
  - intros Hsome%set_truthy_true Hstr. rewrite Hsome.
    destruct (str_items_strings (set_iter new_services)) as (names & Hnames & Hitems).
    { intros a Ha. rewrite set_iter_perm in Ha.
      apply list_elem_of_fmap in Ha as ([k a'] & -> & Hin).
      apply elem_of_map_to_list in Hin. by eapply Hstr. }
    exists names. split; [by rewrite <- Hnames, set_iter_perm|].
    unfold bind, log, lift, ret, str_join. simpl. by rewrite Hw4, Hitems.
Qed.

(** C9.  When the query returns data and the extracted set is empty,
    [flag_new_services] returns exactly
    ["No services found in the AWS cost data."] and the world is the one the
    extraction left: nothing is loaded, compared or written. *)
Theorem flag_new_services_no_services e region w cost_data w1 w2 :
  get_cost_and_usage e (start_date e) (end_date e) w = (Ok cost_data, w1) →
  truthy cost_data = true →
  extract_services cost_data w1 = (Ok ∅, w2) →
  flag_new_services e region w = (Ok "No services found in the AWS cost data.", w2)
  ∧ baseline_file w2 = baseline_file w.
Proof.
  intros Hget Htruthy Hextract. split.
  - unfold flag_new_services. unfold bind at 1. rewrite Hget, Htruthy. cbn [negb].
    unfold bind at 1. by rewrite Hextract.
  - apply extract_services_file in Hextract. apply get_cost_and_usage_file in Hget.
    congruence.
Qed.

(** C10.  When the client returns a falsy value without raising (an empty
    dict, say), [flag_new_services] answers as for a failed query and
    changes nothing. *)
Theorem flag_new_services_falsy_response e region w response :
  ce_get_cost_and_usage e (start_date e) (end_date e) = Some response →
  truthy response = false →
  flag_new_services e region w = (Ok "Error: Could not fetch AWS cost data", w).
Proof.
  intros Hcall Hfalsy. apply flag_falsy with response; [|done].
  unfold get_cost_and_usage. by rewrite Hcall.
Qed.

End Claims.

(** ** The claims on sample runs of the reference runtime *)

Lemma flag_new_services_fetch_failed_witness :
  (get_cost_and_usage (env_of None) "2026-05-07" "2026-11-03" (world_with_file "[]")).1
  = Ok PNone
  ∧ (flag_new_services (rt := reference_runtime) (env_of None) "eu-west-1"
       (world_with_file "[]")).1
    = Ok "Error: Could not fetch AWS cost data"
  ∧ baseline_file
      (flag_new_services (rt := reference_runtime) (env_of None) "eu-west-1"
         (world_with_file "[]")).2
    = Some "[]".
Proof.
  split; [reflexivity|].
  apply (flag_new_services_fetch_failed (rt := reference_runtime)). reflexivity.
Defined.

Lemma baseline_is_current_after_success_witness :
  ∃ text,
    baseline_file
      (flag_new_services (rt := reference_runtime) (env_of (Some two_services_response))
         "eu-west-1" world_without_file).2
    = Some text
    ∧ parse_baseline (rt := reference_runtime) text
      = Some (Ok (set_of_list [AStr "Amazon EC2"; AStr "Amazon S3"])).
Proof.
  apply (baseline_is_current_after_success (rt := reference_runtime)
           (env_of (Some two_services_response)) "eu-west-1" world_without_file
           two_services_response world_without_file
           (set_of_list [AStr "Amazon EC2"; AStr "Amazon S3"]) world_without_file
           "New AWS services detected: Amazon S3, Amazon EC2").
  - reflexivity.
  - reflexivity.
  - reflexivity.
  - apply set_truthy_true. reflexivity.
  - reflexivity.
  - reflexivity.
Defined.


Lemma extract_services_stops_at_first_KeyError_witness :
  walk broken_response
  = (Found <$> [AStr "Amazon EC2"]) ++ Failed (KeyError (PStr "Keys"))
      :: [Found (AStr "Amazon S3")]
  ∧ extract_services broken_response world_without_file
    = (Ok (set_of_list [AStr "Amazon EC2"]), World None [LogParseError (PStr "Keys")]).
Proof.
  split; [reflexivity|].
  apply (extract_services_stops_at_first_KeyError broken_response world_without_file
           [AStr "Amazon EC2"] (PStr "Keys") [Found (AStr "Amazon S3")]).
  reflexivity.
Defined.

Lemma flag_new_services_report_witness :
  (flag_new_services (rt := reference_runtime) (env_of (Some two_services_response))
     "eu-west-1" (world_with_file both_baseline)).1
  = Ok "No new AWS services detected since last check."
  ∧ ∃ names,
      AStr <$> names
      ≡ₚ (map_to_list
            (compare_services (set_of_list [AStr "Amazon EC2"])
               (set_of_list [AStr "Amazon EC2"; AStr "Amazon S3"]))).*2
      ∧ (flag_new_services (rt := reference_runtime) (env_of (Some two_services_response))
           "eu-west-1" (world_with_file ec2_baseline)).1
        = Ok ("New AWS services detected: " +:+ String.concat ", " names).
Proof.
  split.
  - refine (proj1 (flag_new_services_report (rt := reference_runtime)
                     (env_of (Some two_services_response)) "eu-west-1"
                     (world_with_file both_baseline)
                     two_services_response (world_with_file both_baseline)
                     (set_of_list [AStr "Amazon EC2"; AStr "Amazon S3"])
                     (world_with_file both_baseline)
                     (set_of_list [AStr "Amazon EC2"; AStr "Amazon S3"])
                     (world_with_file both_baseline) _ _ _ _ _) _);
      try reflexivity.
    apply set_truthy_true. reflexivity.
  - refine (proj2 (flag_new_services_report (rt := reference_runtime)
                     (env_of (Some two_services_response)) "eu-west-1"
                     (world_with_file ec2_baseline)
                     two_services_response (world_with_file ec2_baseline)
                     (set_of_list [AStr "Amazon EC2"; AStr "Amazon S3"])
                     (world_with_file ec2_baseline)
                     (set_of_list [AStr "Amazon EC2"]) (world_with_file ec2_baseline)
                     _ _ _ _ _) _ _);
      try reflexivity.
    + apply set_truthy_true. reflexivity.
    + apply set_truthy_true. reflexivity.
    + intros k a Hka.
      assert (compare_services (set_of_list [AStr "Amazon EC2"])
                (set_of_list [AStr "Amazon EC2"; AStr "Amazon S3"])
              = {[KStr "Amazon S3" := AStr "Amazon S3"]}) as Heq by reflexivity.
      rewrite Heq in Hka. apply lookup_singleton_Some in Hka as [_ <-]. by eexists.
Defined.

Lemma flag_new_services_no_services_witness :
  flag_new_services (rt := reference_runtime) (env_of (Some (response_of [])))
    "eu-west-1" (world_with_file ec2_baseline)
  = (Ok "No services found in the AWS cost data.", world_with_file ec2_baseline)
  ∧ baseline_file (world_with_file ec2_baseline) = baseline_file (world_with_file ec2_baseline).
Proof.
  apply (flag_new_services_no_services (rt := reference_runtime)
           (env_of (Some (response_of []))) "eu-west-1" (world_with_file ec2_baseline)
           (response_of []) (world_with_file ec2_baseline)); reflexivity.
Defined.

Lemma flag_new_services_falsy_response_witness :
  flag_new_services (rt := reference_runtime) (env_of (Some (PDict []))) "eu-west-1"
    (world_with_file ec2_baseline)
  = (Ok "Error: Could not fetch AWS cost data", world_with_file ec2_baseline).
Proof.
  apply (flag_new_services_falsy_response (rt := reference_runtime)
           (env_of (Some (PDict []))) "eu-west-1" (world_with_file ec2_baseline) (PDict []));
    reflexivity.
Defined.

(** ** More sample runs *)

(** No baseline file and one service billed: the service is reported and
    the file is created. *)
Example first_run_reports_lambda :
  flag_new_services (rt := reference_runtime)
    (env_of (Some (response_of [group_of "AWS Lambda"]))) "eu-west-1" world_without_file
  = (Ok "New AWS services detected: AWS Lambda",
     World (Some (PyJson.dumps (PList [PStr "AWS Lambda"])))
       [LogNewServices (set_of_list [AStr "AWS Lambda"]); LogBaselineNotFound]).
Proof. reflexivity. Qed.

(** The services of the baseline are billed again: nothing is new. *)
Example same_services_nothing_new :
  (flag_new_services (rt := reference_runtime) (env_of (Some two_services_response))
     "eu-west-1" (world_with_file both_baseline)).1
  = Ok "No new AWS services detected since last check.".
Proof. reflexivity. Qed.

(** The write fails: the result is reported all the same and the file keeps
    what the failed write left. *)
Example failed_write_still_reports :
  flag_new_services (rt := reference_runtime)
    (Env 739923 (λ _ _, Some two_services_response) (Some (Some ec2_baseline)))
    "eu-west-1" (world_with_file ec2_baseline)
  = (Ok "New AWS services detected: Amazon S3",
     World (Some ec2_baseline)
       [LogNewServices (set_of_list [AStr "Amazon S3"]); LogSaveError]).
Proof. reflexivity. Qed.

(** The window sent to Cost Explorer on 2026-11-03. *)
Example window_of_sample_run :
  (start_date (rt := reference_runtime) (env_of None),
   end_date (rt := reference_runtime) (env_of None))
  = ("2026-05-07", "2026-11-03").
Proof. reflexivity. Qed.

(** Dropping only the malformed group would have kept the service that
    comes after it. *)
Example skipping_would_differ :
  collect_skipping (walk broken_response) ∅
  = set_of_list [AStr "Amazon EC2"; AStr "Amazon S3"]
  ∧ (extract_services broken_response world_without_file).1
    = Ok (set_of_list [AStr "Amazon EC2"]).
Proof. by split. Qed.

(** ['Keys'] holding a dict: [group['Keys'][0]] raises [KeyError(0)], which
    is caught like a missing key. *)
Example keys_as_dict_is_caught :
  extract_services (response_of [PDict [("Keys", PDict [("0", PStr "Amazon EC2")])]])
    world_without_file
  = (Ok ∅, World None [LogParseError (PInt 0)]).
Proof. reflexivity. Qed.

(** A baseline file holding a JSON number: [set(json.load(f))] raises
    [TypeError], which [load_previous_services] does not catch. *)
Example baseline_number_raises :
  flag_new_services (rt := reference_runtime) (env_of (Some two_services_response))
    "eu-west-1" (world_with_file "5")
  = (Raise TypeError, world_with_file "5").
Proof. reflexivity. Qed.

(** A baseline file whose bytes are not decoded: the exception of the load
    leaves the run, before anything is written. *)
Example undecodable_baseline_stops_the_run :
  flag_new_services (rt := reference_runtime) (env_of (Some two_services_response))
    "eu-west-1" (world_with_file undecodable_baseline)
  = (Raise UnicodeDecodeError, world_with_file undecodable_baseline).
Proof. reflexivity. Qed.

(** A service key that is a number: the baseline is written, then
    [', '.join] raises [TypeError]. *)
Example number_as_service_raises :
  (flag_new_services (rt := reference_runtime)
     (env_of (Some (response_of [PDict [("Keys", PList [PInt 7])]])))
     "eu-west-1" world_without_file).1
  = Raise TypeError.
Proof. reflexivity. Qed.

(** * Further properties of the program *)

(** ** Helpers *)

Lemma walk_well_formed data results (names : list (list atom)) :
  getitem data (PStr "ResultsByTime") = Ok (PList results) →
  Forall2 (λ result ns, ∃ groups,
             getitem result (PStr "Groups") = Ok (PList groups)
             ∧ Forall2 (λ group a, ∃ more,
                          getitem group (PStr "Keys") = Ok (PList (of_atom a :: more)))
                 groups ns)
    results names →
  walk data = Found <$> concat names.
Proof.
  intros Hdata Hall. unfold walk. rewrite Hdata. clear Hdata. cbn [res_bind py_iter].
  induction Hall as [|result ns results names (groups & Hgroups & Hkeys) _ IH]; [done|].
  rewrite bind_cons, IH. cbn [concat]. rewrite fmap_app. f_equal.
  unfold result_steps. rewrite Hgroups. cbn [res_bind py_iter]. clear Hgroups.
  induction Hkeys as [|group a groups ns (more & Hkey) _ IHk]; [done|].
  rewrite !fmap_cons, IHk. f_equal.
  unfold group_step, service_name_of. rewrite Hkey. simpl.
  assert (to_atom (of_atom a) = Some a) as Hatom by by destruct a.
  unfold seq_index. simpl. by rewrite Hatom.
Qed.

Lemma extract_services_result data w w' :
  (extract_services data w).1 = (extract_services data w').1.
Proof.
  unfold extract_services.
  destruct (extract_loop data ∅) as [[[]|err] s]; [done|by destruct err].
Qed.

Section More.
Context {rt : PyRuntime}.

Lemma get_cost_and_usage_again e a b w cost_data w1 w' :
  get_cost_and_usage e a b w = (Ok cost_data, w1) →
  ∃ w1', get_cost_and_usage e a b w' = (Ok cost_data, w1')
         ∧ baseline_file w1' = baseline_file w'.
Proof.
  unfold get_cost_and_usage. destruct (ce_get_cost_and_usage e a b);
    unfold bind, log, ret; simpl; intros; simplify_eq; by eexists.
Qed.

Lemma extract_services_again data w current w1 w' :
  extract_services data w = (Ok current, w1) →
  ∃ w1', extract_services data w' = (Ok current, w1')
         ∧ baseline_file w1' = baseline_file w'.
Proof.
  unfold extract_services. destruct (extract_loop data ∅) as [[[]|err] s];
    [|destruct err]; unfold bind, log, ret, lift; simpl; intros; simplify_eq; by eexists.
Qed.

Lemma load_previous_services_file w r w1 :
  load_previous_services w = (r, w1) → baseline_file w1 = baseline_file w.
Proof.
  unfold load_previous_services. destruct w as [file logs]. simpl.
  destruct file as [text|]; [destruct (json_load text) as [v|err]; [|destruct err]|];
    unfold bind, log, ret, lift; simpl; intros; by simplify_eq.
Qed.

Lemma save_current_services_ok e services w :
  ∃ w1, save_current_services e services w = (Ok tt, w1).
Proof. unfold save_current_services. destruct (write_fault e); by eexists. Qed.

(** What a run returns once the previous set is loaded. *)
Lemma flag_result_after_load e region w cost_data w1 current w2 previous w3 :
  get_cost_and_usage e (start_date e) (end_date e) w = (Ok cost_data, w1) →
  truthy cost_data = true →
  extract_services cost_data w1 = (Ok current, w2) →
  current ≠ ∅ →
  load_previous_services w2 = (Ok previous, w3) →
  (flag_new_services e region w).1
  = if set_truthy (compare_services previous current) then
      res_bind (str_join ", " (set_iter (compare_services previous current)))
        (λ joined, Ok ("New AWS services detected: " +:+ joined))
    else Ok "No new AWS services detected since last check.".
Proof.
  intros Hget Htruthy Hextract Hne Hload.
  rewrite (flag_success_path e region w cost_data w1 current w2 previous w3) by done.
  cbv zeta. destruct (save_current_services_ok e current w3) as [w4 Hsave].
  unfold bind at 1. rewrite Hsave.
  destruct (set_truthy (compare_services previous current)); [|done].
  unfold bind, log, lift, ret. simpl.
  by destruct (str_join ", " (set_iter (compare_services previous current))).
Qed.

Lemma compare_services_wf (previous current : pyset) :
  set_wf current → set_wf (compare_services previous current).
Proof. intros Hwf k a [Hk _]%lookup_difference_Some. by apply Hwf. Qed.

Lemma set_mem_str (s : pyset) n :
  set_wf s → set_mem (AStr n) s = true ↔ s !! KStr n = Some (AStr n).
Proof.
  intros Hwf. unfold set_mem. rewrite bool_decide_eq_true. simpl. split.
  - intros [a Ha]. pose proof (Hwf _ _ Ha) as Hkey. destruct a; by simplify_eq/=.
  - by eexists.
Qed.

Lemma set_mem_false (s : pyset) a : set_mem a s = false ↔ s !! hkey_of a = None.
Proof.
  unfold set_mem. rewrite bool_decide_eq_false, <- eq_None_not_Some. done.
Qed.

Lemma NoDup_values (s : pyset) : set_wf s → NoDup (map_to_list s).*2.
Proof.
  intros Hwf. apply (NoDup_fmap_1 keyed). rewrite keyed_elements by done.
  apply NoDup_map_to_list.
Qed.

(** The names a non-empty set of strings is joined from. *)
Lemma joined_names (new_services : pyset) :
  set_wf new_services →
  (∀ k a, new_services !! k = Some a → ∃ n, a = AStr n) →
  ∃ names, NoDup names
           ∧ (∀ n, n ∈ names ↔ new_services !! KStr n = Some (AStr n))
           ∧ str_join ", " (set_iter new_services) = Ok (String.concat ", " names).
Proof.
  intros Hwf Hstr.
  destruct (str_items_strings (set_iter new_services)) as (names & Hnames & Hitems).
  { intros a Ha. rewrite set_iter_perm in Ha.
    apply list_elem_of_fmap in Ha as ([k a'] & -> & Hin).
    apply elem_of_map_to_list in Hin. by eapply Hstr. }
  assert (AStr <$> names ≡ₚ (map_to_list new_services).*2) as Hperm.
  { by rewrite <- Hnames, set_iter_perm. }
  exists names. split_and!.
  - apply (NoDup_fmap_1 AStr). rewrite Hperm. by apply NoDup_values.
  - intros n. assert (Inj (=) (=) AStr) by (intros ?? ?; by simplify_eq).
    rewrite <- (list_elem_of_fmap_inj AStr).
    rewrite Hperm, list_elem_of_fmap. split.
    + intros ([k a] & Heq & Hin%elem_of_map_to_list). simpl in Heq. subst a.
      pose proof (Hwf _ _ Hin) as Hk. simpl in Hk. by subst k.
    + intros Hin. exists (KStr n, AStr n). split; [done|]. by apply elem_of_map_to_list.
  - unfold str_join. by rewrite Hitems.
Qed.

End More.


Section Extras.
Context {rt : PyRuntime}.

(** X1.  A well formed response: every result has a list of groups and every
    group a list of keys that starts with a hashable value.  Then
    [extract_services] returns the set of the first keys of all the groups
    of all the results, and logs nothing. *)
Theorem extract_services_well_formed data w results (names : list (list atom)) :
  getitem data (PStr "ResultsByTime") = Ok (PList results) →
  Forall2 (λ result ns, ∃ groups,
             getitem result (PStr "Groups") = Ok (PList groups)
             ∧ Forall2 (λ group a, ∃ more,
                          getitem group (PStr "Keys") = Ok (PList (of_atom a :: more)))
                 groups ns)
    results names →
  extract_services data w = (Ok (set_of_list (concat names)), w).
Proof.
  intros Hdata Hall. unfold extract_services.
  rewrite extract_loop_collect, (walk_well_formed data results names) by done.
  by rewrite collect_found.
Qed.

(** X2.  A response that is a non-empty dict without ['ResultsByTime']: the
    [KeyError] is logged, the extraction is empty, and the run reports that no
    services were found, leaving the baseline file as it was. *)
Theorem flag_new_services_missing_results e region w kvs :
  ce_get_cost_and_usage e (start_date e) (end_date e) = Some (PDict kvs) →
  kvs ≠ [] →
  dict_get "ResultsByTime" kvs = None →
  flag_new_services e region w
  = (Ok "No services found in the AWS cost data.",
     World (baseline_file w) (LogParseError (PStr "ResultsByTime") :: logged w)).
Proof.
  intros Hcall Hne Hmissing.
  unfold flag_new_services, get_cost_and_usage. rewrite Hcall.
  unfold bind at 1. unfold ret at 1.
  assert (truthy (PDict kvs) = true) as -> by by destruct kvs.
  cbn [negb]. unfold bind at 1.
  assert (extract_services (PDict kvs) w
          = (Ok ∅, World (baseline_file w) (LogParseError (PStr "ResultsByTime") :: logged w)))
    as ->; [|done].
  unfold extract_services, extract_loop, bind, lift. simpl. by rewrite Hmissing.
Qed.

(** X3.  Once the previous set is loaded and the new services are strings,
    the names in the report are exactly the services that are in the current
    set and not in the previous one, each named once. *)
Theorem flag_new_services_reports_exactly_new
    e region w cost_data w1 current w2 previous w3 :
  get_cost_and_usage e (start_date e) (end_date e) w = (Ok cost_data, w1) →
  truthy cost_data = true →
  extract_services cost_data w1 = (Ok current, w2) →
  current ≠ ∅ →
  load_previous_services w2 = (Ok previous, w3) →
  compare_services previous current ≠ ∅ →
  (∀ k a, compare_services previous current !! k = Some a → ∃ n, a = AStr n) →
  ∃ names,
    NoDup names
    ∧ (∀ n, n ∈ names ↔
            set_mem (AStr n) current = true ∧ set_mem (AStr n) previous = false)
    ∧ (flag_new_services e region w).1
      = Ok ("New AWS services detected: " +:+ String.concat ", " names).
Proof.
  intros Hget Htruthy Hextract Hne Hload Hnew%set_truthy_true Hstr.
  pose proof (extract_services_wf _ _ _ _ Hextract) as Hwf.
  destruct (joined_names (compare_services previous current)) as (names & Hnd & Hin & Hjoin);
    [by apply compare_services_wf|done|].
  exists names. split_and!; [done| |].
  - intros n. rewrite Hin. unfold compare_services. rewrite lookup_difference_Some.
    by rewrite set_mem_str, set_mem_false.
  - rewrite (flag_result_after_load e region w cost_data w1 current w2 previous w3) by done.
    by rewrite Hnew, Hjoin.
Qed.

(** X4.  A first run: with no baseline file, or with one on which
    [json.load] raises [JSONDecodeError], every service of the current set is
    reported as new. *)
Theorem flag_new_services_first_run e region w cost_data w1 current w2 :
  get_cost_and_usage e (start_date e) (end_date e) w = (Ok cost_data, w1) →
  truthy cost_data = true →
  extract_services cost_data w1 = (Ok current, w2) →
  current ≠ ∅ →
  (∀ k a, current !! k = Some a → ∃ n, a = AStr n) →
  baseline_file w = None
  ∨ (∃ content, baseline_file w = Some content
                ∧ json_load content = Raise JSONDecodeError) →
  ∃ names,
    NoDup names
    ∧ (∀ n, n ∈ names ↔ set_mem (AStr n) current = true)
    ∧ (flag_new_services e region w).1
      = Ok ("New AWS services detected: " +:+ String.concat ", " names).
Proof.
  intros Hget Htruthy Hextract Hne Hstr Hfile.
  pose proof (extract_services_wf _ _ _ _ Hextract) as Hwf.
  assert (baseline_file w2 = baseline_file w) as Hsame.
  { apply extract_services_file in Hextract. apply get_cost_and_usage_file in Hget.
    congruence. }
  assert (∃ w3, load_previous_services w2 = (Ok ∅, w3)) as [w3 Hload].
  { rewrite <- Hsame in Hfile.
    destruct (load_previous_services_recovers w2) as [Hnone Hdecode].
    destruct Hfile as [Hfile|(content & Hfile & Hcontent)]; eexists; eauto. }
  assert (compare_services ∅ current = current) as Hall.
  { unfold compare_services. apply map_eq. intros k.
    by rewrite lookup_difference, lookup_empty. }
  destruct (joined_names current) as (names & Hnd & Hin & Hjoin); [done..|].
  exists names. split_and!; [done| |].
  - intros n. by rewrite Hin, set_mem_str.
  - rewrite (flag_result_after_load e region w cost_data w1 current w2 ∅ w3) by done.
    rewrite Hall. apply set_truthy_true in Hne. by rewrite Hne, Hjoin.
Qed.

Lemma flag_extract_raises e region w cost_data w1 err w2 :
  get_cost_and_usage e (start_date e) (end_date e) w = (Ok cost_data, w1) →
  truthy cost_data = true →
  extract_services cost_data w1 = (Raise err, w2) →
  flag_new_services e region w = (Raise err, w2).
Proof.
  intros Hget Htruthy Hextract.
  unfold flag_new_services. unfold bind at 1. rewrite Hget, Htruthy. cbn [negb].
  unfold bind at 1. by rewrite Hextract.
Qed.

Lemma flag_empty_extraction e region w cost_data w1 current w2 :
  get_cost_and_usage e (start_date e) (end_date e) w = (Ok cost_data, w1) →
  truthy cost_data = true →
  extract_services cost_data w1 = (Ok current, w2) →
  set_truthy current = false →
  flag_new_services e region w = (Ok "No services found in the AWS cost data.", w2).
Proof.
  intros Hget Htruthy Hextract Hcur.
  unfold flag_new_services. unfold bind at 1. rewrite Hget, Htruthy. cbn [negb].
  unfold bind at 1. by rewrite Hextract, Hcur.
Qed.

(** The baseline a successful run leaves is loaded by the next run. *)
Lemma load_after_success e region w cost_data w1 current w2 message w' :
  get_cost_and_usage e (start_date e) (end_date e) w = (Ok cost_data, w1) →
  truthy cost_data = true →
  extract_services cost_data w1 = (Ok current, w2) →
  current ≠ ∅ →
  write_fault e = None →
  (flag_new_services e region w).1 = Ok message →
  baseline_file w' = baseline_file (flag_new_services e region w).2 →
  load_previous_services w' = (Ok current, w').
Proof.
  intros Hget Htruthy Hextract Hne Hwrite Hok Hfile.
  destruct (load_previous_services w2) as [[previous|err] w3] eqn:Hload.
  - rewrite (flag_writes_current e region w cost_data w1 current w2 previous w3) in Hfile
      by done.
    apply load_previous_services_loaded with (1 := Hfile).
    apply parse_baseline_saved. by eapply extract_services_wf.
  - by rewrite (flag_load_raises e region w cost_data w1 current w2 err w3) in Hok.
Qed.

(** X5.  Two runs in a row: after a successful run with a write that
    succeeds, the next run compares with the set the first one extracted.
    It reports nothing new when every current service was in that set, and
    otherwise names exactly the services that were not. *)
Theorem flag_new_services_second_run
    e1 region1 w data1 w1 current1 w2 message1
    e2 region2 data2 w3 current2 w4 :
  get_cost_and_usage e1 (start_date e1) (end_date e1) w = (Ok data1, w1) →
  truthy data1 = true →
  extract_services data1 w1 = (Ok current1, w2) →
  current1 ≠ ∅ →
  write_fault e1 = None →
  (flag_new_services e1 region1 w).1 = Ok message1 →
  get_cost_and_usage e2 (start_date e2) (end_date e2) (flag_new_services e1 region1 w).2
  = (Ok data2, w3) →
  truthy data2 = true →
  extract_services data2 w3 = (Ok current2, w4) →
  current2 ≠ ∅ →
  (compare_services current1 current2 = ∅ →
   (flag_new_services e2 region2 (flag_new_services e1 region1 w).2).1
   = Ok "No new AWS services detected since last check.")
  ∧ (compare_services current1 current2 ≠ ∅ →
     (∀ k a, compare_services current1 current2 !! k = Some a → ∃ n, a = AStr n) →
     ∃ names,
       NoDup names
       ∧ (∀ n, n ∈ names ↔
               set_mem (AStr n) current2 = true ∧ set_mem (AStr n) current1 = false)
       ∧ (flag_new_services e2 region2 (flag_new_services e1 region1 w).2).1
         = Ok ("New AWS services detected: " +:+ String.concat ", " names)).
Proof.
  intros Hget1 Htruthy1 Hextract1 Hne1 Hwrite1 Hok1 Hget2 Htruthy2 Hextract2 Hne2.
  assert (load_previous_services w4 = (Ok current1, w4)) as Hload.
  { apply (load_after_success e1 region1 w data1 w1 current1 w2 message1 w4); try done.
    apply extract_services_file in Hextract2. apply get_cost_and_usage_file in Hget2.
    congruence. }
  pose proof (extract_services_wf _ _ _ _ Hextract2) as Hwf2.
  rewrite (flag_result_after_load e2 region2 _ data2 w3 current2 w4 current1 w4) by done.
  split.
  - intros Hnone%set_truthy_false. by rewrite Hnone.
  - intros Hsome%set_truthy_true Hstr. rewrite Hsome.
    destruct (joined_names (compare_services current1 current2))
      as (names & Hnd & Hin & Hjoin); [by apply compare_services_wf|done|].
    exists names. split_and!; [done| |by rewrite Hjoin].
    intros n. rewrite Hin. unfold compare_services. rewrite lookup_difference_Some.
    by rewrite set_mem_str, set_mem_false.
Qed.

(** X6.  Running again with the same answer from Cost Explorer, right after
    a successful run with a write that succeeds, reports nothing new. *)
Theorem flag_new_services_rerun_quiet e region region' w cost_data w1 current w2 message :
  get_cost_and_usage e (start_date e) (end_date e) w = (Ok cost_data, w1) →
  truthy cost_data = true →
  extract_services cost_data w1 = (Ok current, w2) →
  current ≠ ∅ →
  write_fault e = None →
  (flag_new_services e region w).1 = Ok message →
  (flag_new_services e region' (flag_new_services e region w).2).1
  = Ok "No new AWS services detected since last check.".
Proof.
  intros Hget Htruthy Hextract Hne Hwrite Hok.
  destruct (get_cost_and_usage_again _ _ _ _ _ _ (flag_new_services e region w).2 Hget)
    as (w3 & Hget2 & Hfile3).
  destruct (extract_services_again _ _ _ _ w3 Hextract) as (w4 & Hextract2 & Hfile4).
  assert (load_previous_services w4 = (Ok current, w4)) as Hload.
  { apply (load_after_success e region w cost_data w1 current w2 message w4); try done.
    congruence. }
  rewrite (flag_result_after_load e region' _ cost_data w3 current w4 current w4) by done.
  unfold compare_services. rewrite map_difference_diag.
  by assert (set_truthy (∅ : pyset) = false) as -> by by apply set_truthy_false.
Qed.

(** X7.  What a run returns does not depend on whether the baseline can be
    written: the [IOError] of a failed write is swallowed and the report is
    the same. *)
Theorem flag_new_services_result_ignores_write_fault e fault region w :
  (flag_new_services (Env (today e) (ce_get_cost_and_usage e) fault) region w).1
  = (flag_new_services e region w).1.
Proof.
  set (e' := Env (today e) (ce_get_cost_and_usage e) fault).
  destruct (get_cost_and_usage e (start_date e) (end_date e) w) as [[cost_data|err] w1]
    eqn:Hget.
  2: { unfold get_cost_and_usage in Hget.
       destruct (ce_get_cost_and_usage e (start_date e) (end_date e)); by simplify_eq/=. }
  assert (get_cost_and_usage e' (start_date e') (end_date e') w = (Ok cost_data, w1))
    as Hget' by done.
  destruct (truthy cost_data) eqn:Htruthy.
  2: { by rewrite (flag_falsy e region w cost_data w1),
         (flag_falsy e' region w cost_data w1). }
  destruct (extract_services cost_data w1) as [[current|err] w2] eqn:Hextract.
  2: { by rewrite (flag_extract_raises e region w cost_data w1 err w2),
         (flag_extract_raises e' region w cost_data w1 err w2). }
  destruct (set_truthy current) eqn:Hcur.
  2: { by rewrite (flag_empty_extraction e region w cost_data w1 current w2),
         (flag_empty_extraction e' region w cost_data w1 current w2). }
  apply set_truthy_true in Hcur.
  destruct (load_previous_services w2) as [[previous|err] w3] eqn:Hload.
  - by rewrite (flag_result_after_load e region w cost_data w1 current w2 previous w3),
      (flag_result_after_load e' region w cost_data w1 current w2 previous w3).
  - by rewrite (flag_load_raises e region w cost_data w1 current w2 err w3),
      (flag_load_raises e' region w cost_data w1 current w2 err w3).
Qed.

(** X8.  What a run does to the baseline file: it leaves it as it was, or it
    replaces it with the dump of the set it extracted, which is not empty, or
    the file is what a failed write left.  An empty set is never written. *)
Theorem flag_new_services_file e region w :
  baseline_file (flag_new_services e region w).2 = baseline_file w
  ∨ (write_fault e = None
     ∧ ∃ cost_data w1 current w2,
         get_cost_and_usage e (start_date e) (end_date e) w = (Ok cost_data, w1)
         ∧ extract_services cost_data w1 = (Ok current, w2)
         ∧ current ≠ ∅
         ∧ baseline_file (flag_new_services e region w).2
           = Some (json_dumps (PList (of_atom <$> set_iter current))))
  ∨ write_fault e = Some (baseline_file (flag_new_services e region w).2).
Proof.
  destruct (get_cost_and_usage e (start_date e) (end_date e) w) as [[cost_data|err] w1]
    eqn:Hget.
  2: { unfold get_cost_and_usage in Hget.
       destruct (ce_get_cost_and_usage e (start_date e) (end_date e)); by simplify_eq/=. }
  pose proof (get_cost_and_usage_file _ _ _ _ _ _ Hget) as Hfile1.
  destruct (truthy cost_data) eqn:Htruthy.
  2: { left. by rewrite (flag_falsy e region w cost_data w1). }
  destruct (extract_services cost_data w1) as [[current|err] w2] eqn:Hextract.
  2: { left. rewrite (flag_extract_raises e region w cost_data w1 err w2) by done.
       apply extract_services_file in Hextract. simpl. congruence. }
  pose proof (extract_services_file _ _ _ _ Hextract) as Hfile2.
  destruct (set_truthy current) eqn:Hcur.
  2: { left. rewrite (flag_empty_extraction e region w cost_data w1 current w2) by done.
       simpl. congruence. }
  apply set_truthy_true in Hcur.
  destruct (load_previous_services w2) as [[previous|err] w3] eqn:Hload.
  2: { left. rewrite (flag_load_raises e region w cost_data w1 current w2 err w3) by done.
       apply load_previous_services_file in Hload. simpl. congruence. }
  destruct (write_fault e) as [remains|] eqn:Hwrite.
  - right. right. f_equal.
    rewrite (flag_success_path e region w cost_data w1 current w2 previous w3) by done.
    cbv zeta. unfold save_current_services. rewrite Hwrite.
    unfold bind, write_baseline, log, lift, ret. simpl.
    destruct (set_truthy (compare_services previous current)); [|done].
    by destruct (str_join ", " (set_iter (compare_services previous current))).
  - right. left. split; [done|]. exists cost_data, w1, current, w2.
    split_and!; [done..|]. by eapply flag_writes_current.
Qed.



(** X11.  A baseline file that holds valid JSON which is no array: for
    [null], a boolean or a number, [set(...)] raises [TypeError] and
    [load_previous_services] lets it pass; for an object, the set of its
    keys is returned. *)
Theorem load_previous_services_not_an_array w text v :
  baseline_file w = Some text →
  json_loads text = Some v →
  (v = PNone ∨ (∃ b, v = PBool b) ∨ (∃ z, v = PInt z) →
   load_previous_services w = (Raise TypeError, w))
  ∧ (∀ kvs, v = PDict kvs →
     load_previous_services w = (Ok (set_of_list (AStr <$> kvs.*1)), w)).
Proof.
  intros Hfile Htext%json_loads_Some. unfold load_previous_services.
  rewrite Hfile, Htext. split.
  - by intros [->|[[b ->]|[z ->]]].
  - intros kvs ->. unfold lift, py_set. simpl.
    replace (PStr <$> kvs.*1) with (of_atom <$> (AStr <$> kvs.*1))
      by by rewrite <- list_fmap_compose.
    by rewrite for_each_add.
Qed.

(** X12.  An exception of the walk that is no [KeyError] leaves
    [extract_services]: nothing is logged and the names found before it are
    not returned. *)
Theorem extract_services_other_error_escapes data w names err later :
  walk data = (Found <$> names) ++ Failed err :: later →
  (∀ k, err ≠ KeyError k) →
  extract_services data w = (Raise err, w).
Proof.
  intros Hwalk Hother. unfold extract_services.
  rewrite extract_loop_collect, Hwalk, collect_app, collect_found. simpl.
  destruct err as [k| | | | | |]; [by destruct (Hother k)|done..].
Qed.

End Extras.

(** ** Sample runs for the further properties *)

Lemma extract_services_well_formed_witness :
  extract_services two_services_response world_without_file
  = (Ok (set_of_list [AStr "Amazon EC2"; AStr "Amazon S3"]), world_without_file).
Proof.
  refine (extract_services_well_formed two_services_response world_without_file _
            [[AStr "Amazon EC2"; AStr "Amazon S3"]] _ _).
  - reflexivity.
  - repeat first [ apply Forall2_nil | apply Forall2_cons | eexists | split | reflexivity ].
Defined.

Lemma flag_new_services_missing_results_witness :
  flag_new_services (rt := reference_runtime)
    (env_of (Some (PDict [("ResponseMetadata", PDict [])]))) "eu-west-1"
    (world_with_file ec2_baseline)
  = (Ok "No services found in the AWS cost data.",
     World (Some ec2_baseline) [LogParseError (PStr "ResultsByTime")]).
Proof.
  apply (flag_new_services_missing_results (rt := reference_runtime)
           (env_of (Some (PDict [("ResponseMetadata", PDict [])]))) "eu-west-1"
           (world_with_file ec2_baseline) [("ResponseMetadata", PDict [])]);
    [reflexivity|discriminate|reflexivity].
Defined.

Lemma flag_new_services_reports_exactly_new_witness :
  ∃ names,
    NoDup names
    ∧ (∀ n, n ∈ names ↔
            set_mem (AStr n) (set_of_list [AStr "Amazon EC2"; AStr "Amazon S3"]) = true
            ∧ set_mem (AStr n) (set_of_list [AStr "Amazon EC2"]) = false)
    ∧ (flag_new_services (rt := reference_runtime) (env_of (Some two_services_response))
         "eu-west-1" (world_with_file ec2_baseline)).1
      = Ok ("New AWS services detected: " +:+ String.concat ", " names).
Proof.
  refine (flag_new_services_reports_exactly_new (rt := reference_runtime)
            (env_of (Some two_services_response)) "eu-west-1"
            (world_with_file ec2_baseline)
            two_services_response (world_with_file ec2_baseline)
            (set_of_list [AStr "Amazon EC2"; AStr "Amazon S3"])
            (world_with_file ec2_baseline)
            (set_of_list [AStr "Amazon EC2"]) (world_with_file ec2_baseline)
            _ _ _ _ _ _ _);
    try reflexivity.
  - apply set_truthy_true. reflexivity.
  - apply set_truthy_true. reflexivity.
  - intros k a Hka.
    assert (compare_services (set_of_list [AStr "Amazon EC2"])
              (set_of_list [AStr "Amazon EC2"; AStr "Amazon S3"])
            = {[KStr "Amazon S3" := AStr "Amazon S3"]}) as Heq by reflexivity.
    rewrite Heq in Hka. apply lookup_singleton_Some in Hka as [_ <-]. by eexists.
Defined.

Lemma flag_new_services_first_run_witness :
  (∃ names,
     NoDup names
     ∧ (∀ n, n ∈ names ↔ set_mem (AStr n) (set_of_list [AStr "AWS Lambda"]) = true)
     ∧ (flag_new_services (rt := reference_runtime)
          (env_of (Some (response_of [group_of "AWS Lambda"]))) "eu-west-1"
          world_without_file).1
       = Ok ("New AWS services detected: " +:+ String.concat ", " names))
  ∧ @json_load reference_runtime truncated_baseline = Raise JSONDecodeError
  ∧ ∃ names,
      NoDup names
      ∧ (∀ n, n ∈ names ↔ set_mem (AStr n) (set_of_list [AStr "AWS Lambda"]) = true)
      ∧ (flag_new_services (rt := reference_runtime)
           (env_of (Some (response_of [group_of "AWS Lambda"]))) "eu-west-1"
           (world_with_file truncated_baseline)).1
        = Ok ("New AWS services detected: " +:+ String.concat ", " names).
Proof.
  assert (∀ k a, set_of_list [AStr "AWS Lambda"] !! k = Some a → ∃ n, a = AStr n)
    as Hstr.
  { intros k a Hka.
    assert (set_of_list [AStr "AWS Lambda"] = {[KStr "AWS Lambda" := AStr "AWS Lambda"]})
      as Heq by reflexivity.
    rewrite Heq in Hka. apply lookup_singleton_Some in Hka as [_ <-]. by eexists. }
  split; [|split; [reflexivity|]].
  - refine (flag_new_services_first_run (rt := reference_runtime)
              (env_of (Some (response_of [group_of "AWS Lambda"]))) "eu-west-1"
              world_without_file (response_of [group_of "AWS Lambda"]) world_without_file
              (set_of_list [AStr "AWS Lambda"]) world_without_file _ _ _ _ Hstr _);
      try reflexivity.
    + apply set_truthy_true. reflexivity.
    + by left.
  - refine (flag_new_services_first_run (rt := reference_runtime)
              (env_of (Some (response_of [group_of "AWS Lambda"]))) "eu-west-1"
              (world_with_file truncated_baseline)
              (response_of [group_of "AWS Lambda"]) (world_with_file truncated_baseline)
              (set_of_list [AStr "AWS Lambda"]) (world_with_file truncated_baseline)
              _ _ _ _ Hstr _);
      try reflexivity.
    + apply set_truthy_true. reflexivity.
    + right. exists truncated_baseline. by split.
Defined.

Lemma flag_new_services_rerun_quiet_witness :
  (flag_new_services (rt := reference_runtime) (env_of (Some two_services_response))
     "us-east-1"
     (flag_new_services (rt := reference_runtime) (env_of (Some two_services_response))
        "eu-west-1" world_without_file).2).1
  = Ok "No new AWS services detected since last check.".
Proof.
  refine (flag_new_services_rerun_quiet (rt := reference_runtime)
            (env_of (Some two_services_response)) "eu-west-1" "us-east-1"
            world_without_file two_services_response world_without_file
            (set_of_list [AStr "Amazon EC2"; AStr "Amazon S3"]) world_without_file
            "New AWS services detected: Amazon S3, Amazon EC2" _ _ _ _ _ _);
    try reflexivity.
  apply set_truthy_true. reflexivity.
Defined.


Lemma extract_services_other_error_escapes_witness :
  extract_services
    (response_of [group_of "Amazon EC2"; PDict [("Keys", PList [])]; group_of "Amazon S3"])
    world_without_file
  = (Raise IndexError, world_without_file).
Proof.
  apply (extract_services_other_error_escapes _ world_without_file
           [AStr "Amazon EC2"] IndexError [Found (AStr "Amazon S3")]);
    [reflexivity|discriminate].
Defined.

Lemma flag_new_services_second_run_witness :
  ((flag_new_services (rt := reference_runtime)
      (env_of (Some (response_of [group_of "Amazon EC2"]))) "eu-west-1"
      (flag_new_services (rt := reference_runtime) (env_of (Some two_services_response))
         "eu-west-1" world_without_file).2).1
   = Ok "No new AWS services detected since last check.")
  ∧ ∃ names,
      NoDup names
      ∧ (∀ n, n ∈ names ↔
              set_mem (AStr n) (set_of_list [AStr "Amazon EC2"; AStr "Amazon S3"]) = true
              ∧ set_mem (AStr n) (set_of_list [AStr "Amazon EC2"]) = false)
      ∧ (flag_new_services (rt := reference_runtime) (env_of (Some two_services_response))
           "eu-west-1"
           (flag_new_services (rt := reference_runtime)
              (env_of (Some (response_of [group_of "Amazon EC2"]))) "eu-west-1"
              world_without_file).2).1
        = Ok ("New AWS services detected: " +:+ String.concat ", " names).
Proof.
  split.
  - refine (proj1 (flag_new_services_second_run (rt := reference_runtime)
                     (env_of (Some two_services_response)) "eu-west-1" world_without_file
                     two_services_response world_without_file
                     (set_of_list [AStr "Amazon EC2"; AStr "Amazon S3"]) world_without_file
                     "New AWS services detected: Amazon S3, Amazon EC2"
                     (env_of (Some (response_of [group_of "Amazon EC2"]))) "eu-west-1"
                     (response_of [group_of "Amazon EC2"]) _
                     (set_of_list [AStr "Amazon EC2"]) _
                     _ _ _ _ _ _ _ _ _ _) _);
      try reflexivity.
    + apply set_truthy_true. reflexivity.
    + apply set_truthy_true. reflexivity.
  - refine (proj2 (flag_new_services_second_run (rt := reference_runtime)
                     (env_of (Some (response_of [group_of "Amazon EC2"]))) "eu-west-1"
                     world_without_file
                     (response_of [group_of "Amazon EC2"]) world_without_file
                     (set_of_list [AStr "Amazon EC2"]) world_without_file
                     "New AWS services detected: Amazon EC2"
                     (env_of (Some two_services_response)) "eu-west-1"
                     two_services_response _
                     (set_of_list [AStr "Amazon EC2"; AStr "Amazon S3"]) _
                     _ _ _ _ _ _ _ _ _ _) _ _);
      try reflexivity.
    + apply set_truthy_true. reflexivity.
    + apply set_truthy_true. reflexivity.
    + apply set_truthy_true. reflexivity.
    + intros k a Hka.
      assert (compare_services (set_of_list [AStr "Amazon EC2"])
                (set_of_list [AStr "Amazon EC2"; AStr "Amazon S3"])
              = {[KStr "Amazon S3" := AStr "Amazon S3"]}) as Heq by reflexivity.
      rewrite Heq in Hka. apply lookup_singleton_Some in Hka as [_ <-]. by eexists.
Defined.


Lemma load_previous_services_not_an_array_witness :
  load_previous_services (rt := reference_runtime) (world_with_file "5")
  = (Raise TypeError, world_with_file "5")
  ∧ load_previous_services (rt := reference_runtime)
      (world_with_file (PyJson.dumps (PDict [("Amazon EC2", PInt 1); ("Amazon S3", PInt 2)])))
    = (Ok (set_of_list [AStr "Amazon EC2"; AStr "Amazon S3"]),
       world_with_file (PyJson.dumps (PDict [("Amazon EC2", PInt 1); ("Amazon S3", PInt 2)]))).
Proof.
  split.
  - refine (proj1 (load_previous_services_not_an_array (rt := reference_runtime)
                     (world_with_file "5") "5" (PInt 5) _ _) _); [reflexivity..|].
    right. right. by eexists.
  - refine (proj2 (load_previous_services_not_an_array (rt := reference_runtime)
                     (world_with_file _) _ (PDict [("Amazon EC2", PInt 1); ("Amazon S3", PInt 2)])
                     _ _) [("Amazon EC2", PInt 1); ("Amazon S3", PInt 2)] _);
      reflexivity.
Defined.
